(** * Sabre: the command-line pipeline of [sabre.js]

    A shallow embedding of the script [src/sabre.js]: argument checks,
    credential fallback, reading the entry file, loading the compiler,
    resolving and compiling the sources, building and submitting the
    analysis request, and reporting the issues.

    The script is one straight line of control with early [process.exit]
    calls, two [try]/[catch] blocks around collaborators, and two promise
    chains.  It is embedded as a computation in a small monad over the
    process state (console and call log, the script's mutable variables and
    objects, the spinners that keep the event loop alive) whose result is
    either a value or an exit code. *)

From stdpp Require Import base strings list gmap sorting.
From Stdlib Require Import ZArith Ascii String.

Local Open Scope Z_scope.
Local Open Scope string_scope.

(** ** JavaScript values used by the script *)

Module JS.

(** Plain data that crosses the boundary to the collaborators. *)
#[local] Unset Elimination Schemes.
Inductive jsval :=
| JUndefined
| JString (s : string)
| JNumber (z : Z)
| JBool (b : bool)
| JArray (l : list jsval)
| JObject (o : list (string * jsval)).
#[local] Set Elimination Schemes.

(** An object whose property order is observed ([Object.keys], spread):
    properties in insertion order, one entry per name. *)
Definition obj (V : Type) := list (string * V).

(** [o[k]] *)
Fixpoint obj_get {V} (k : string) (o : obj V) : option V :=
  match o with
  | [] => None
  | (k', v) :: o' => if decide (k' = k) then Some v else obj_get k o'
  end.

(** [o[k] = v]: an existing property keeps its place, a new one goes last. *)
Fixpoint obj_set {V} (k : string) (v : V) (o : obj V) : obj V :=
  match o with
  | [] => [(k, v)]
  | (k', v') :: o' =>
      if decide (k' = k) then (k', v) :: o' else (k', v') :: obj_set k v o'
  end.

(** [Object.keys(o)].  The property names of the objects the script
    enumerates are file paths; none is an array index, so the order is
    the insertion order. *)
Definition Object_keys {V} (o : obj V) : list string := o.*1.

(** [{ ...o }]: a fresh object with the same properties in the same order. *)
Definition spread {V} (o : obj V) : obj V := o.

(** What minimist yields for an option declared in [string]: the string
    given, or an array of strings when the option is repeated. *)
Inductive argval :=
| AStr (s : string)
| AArr (l : list string).

(** [list.includes(v)] and [list.indexOf(v) >= 0] for a list of string
    literals: both compare with strict equality, which no array passes. *)
Definition includes (l : list string) (v : argval) : bool :=
  match v with
  | AStr s => bool_decide (s ∈ l)
  | AArr _ => false
  end.

(** [v == s] for a string literal [s]: an array is first joined with commas. *)
Definition loose_eq (v : argval) (s : string) : bool :=
  match v with
  | AStr s' => bool_decide (s' = s)
  | AArr l => bool_decide (String.concat "," l = s)
  end.

(** What minimist yields for a positional argument: the string given, or,
    for an argument that looks like a number ([123], [1.5], [0x10]), the
    number, kept here by its string conversion. *)
Inductive posval :=
| PStr (s : string)
| PNum (shown : string).

(** [typeof v === 'string'], for [v = list[i]]. *)
Definition is_string (v : option posval) : bool :=
  match v with
  | Some (PStr _) => true
  | _ => false
  end.

(** String conversion of [list[i]] inside a template literal. *)
Definition shown_as (v : option posval) : string :=
  match v with
  | Some (PStr s) => s
  | Some (PNum shown) => shown
  | None => "undefined"
  end.

(** Truthiness of a variable read from [process.env]: set and not empty. *)
Definition truthy (v : option string) : bool :=
  match v with
  | Some s => negb (bool_decide (s = ""))
  | None => false
  end.

(** String conversion inside [+] and template literals. *)
Definition to_string (v : option string) : string :=
  match v with
  | Some s => s
  | None => "undefined"
  end.

(** A call that returns or throws an error with a [message]. *)
Inductive attempt (A : Type) :=
| Returns (a : A)
| Throws (message : string).
Arguments Returns {A} a.
Arguments Throws {A} message.

(** A promise once settled. *)
Inductive settled (E A : Type) :=
| Fulfilled (a : A)
| Rejected (err : E).
Arguments Fulfilled {E A} a.
Arguments Rejected {E A} err.

End JS.
Import JS.

(** ** Data exchanged with the collaborators *)

(** [args], as minimist returns it for the options the script declares;
    [positional] is [args._]. *)
Record Args := {
  positional : list posval;
  version : bool;
  help : bool;
  noCacheLookup : bool;
  debug : bool;
  mode : argval;
  format : argval;
  clientToolName : option string;
}.

(** [new Resolver({ working_directory, contracts_build_directory })] *)
Record Resolver := {
  working_directory : string;
  contracts_build_directory : string;
}.

(** [solc.setupMethods(requireFromString(solcString), name)] *)
Record SolcSnapshot := {
  solcString : string;
  soljsonName : string;
}.

(** One entry of the object [Profiler.resolveAllSources] resolves to. *)
Record ResolvedSource := { body : string }.

(** What [compiler.getSolcInput] returns; the script reads [sources]. *)
Record SolcInput := {
  sources : obj jsval;
  settings : jsval;
}.

(** What [compiler.getCompiledContracts] returns; the script reads
    [contractName]. *)
Record CompiledData := {
  contractName : string;
  compiled : jsval;
}.

(** The request body [data]: a JavaScript object. *)
Abbreviation RequestData := (gmap string jsval).

(** Modelled from the spec: the finding records of [lib/report.js] and of
    the service response, which are not part of the sources at hand
    (data model, RawIssue and CanonicalIssue). *)
Inductive Severity := Low | Medium | High.

Record RawIssue := {
  raw_ruleId : string;
  raw_severity : Severity;
  locationRef : nat;
  raw_message : string;
}.

Record CanonicalIssue := {
  ruleId : string;
  severity : Severity;
  filePath : string;
  line : nat;
  column : nat;
  message : string;
}.

(** The response body [result]; the script reads [issues]. *)
Record AnalysisResult := { issues : list RawIssue }.

(** Modelled from the spec: the errors with which [lib/client.js], which is
    not part of the sources at hand, can reject the analysis promise (error
    taxonomy: SubmissionError, TransientNetworkError, Timeout).  Each
    carries the text its string conversion yields. *)
Inductive AnalysisError :=
| SubmissionRejected (text : string)
| TransientNetwork (text : string)
| DeadlineElapsed (text : string).

(** [String(err)] *)
Definition error_text (e : AnalysisError) : string :=
  match e with
  | SubmissionRejected t | TransientNetwork t | DeadlineElapsed t => t
  end.

(** ** The process *)

Inductive Spinner := solcSpinner | analysisSpinner.

Definition same_spinner (a b : Spinner) : bool :=
  match a, b with
  | solcSpinner, solcSpinner | analysisSpinner, analysisSpinner => true
  | _, _ => false
  end.

(** What [console.log] receives. *)
Inductive Printed :=
| Plain (s : string)
| Red (s : string)                      (* chalk.red *)
| RedThrown (message : string)          (* chalk.red(err), err thrown *)
| Green (s : string)                    (* chalk.green *)
| InspectRequest (d : RequestData)      (* util.inspect(data, ...) *)
| InspectResponse (r : AnalysisResult). (* util.inspect(result, ...) *)

(** Console output, spinner transitions and calls of the pipeline stages,
    in the order in which they happen. *)
Inductive Event :=
| ConsoleLog (p : Printed)
| SpinnerStart (sp : Spinner) (text : string)
| SpinnerSucceed (sp : Spinner) (text : string)
| SpinnerFail (sp : Spinner) (text : string)
| SpinnerStop (sp : Spinner)
| CallReadFileSync (path : string)
| CallGetSolidityVersion (code : string)
| CallLoadSolcVersion (release : option string)
| CallResolveAllSources (r : Resolver) (paths : list string) (solc : SolcSnapshot)
| CallGetSolcInput (srcs : obj jsval)
| CallGetCompiledContracts (input : SolcInput) (solc : SolcSnapshot)
    (path : string) (name : option posval)
| CallGetRequestData (c : CompiledData) (sourceList : list string)
    (path : string) (a : Args)
| CallGetMythXReport (apiUrl ethAddress password : option string)
    (data : RequestData) (initialDelay timeout : Z)
| CallFormatIssues (data : RequestData) (raw : list RawIssue)
| CallGetFormatter (fmt : argval).

(** The mutable state of the process: the log, the [let] variables
    [ethAddress] and [password], the object [allSources], the object behind
    [data] (shared with the analysis client once submitted), and the
    spinners that are spinning. *)
Record State := {
  trace : list Event;
  ethAddress : option string;
  password : option string;
  allSources : obj jsval;
  payload : option RequestData;
  spinning : list Spinner;
}.

(** An exception that no handler catches: the [TypeError] of [path.resolve]
    for an argument that is no string, or an error a collaborator throws
    outside every [try] and every promise. *)
Inductive Uncaught :=
| InvalidPathArgument
| Thrown (message : string).

Module Proc.

Inductive result (A : Type) :=
| Done (a : A)
| Exited (code : Z)        (* process.exit(code) *)
| Crashed (e : Uncaught).  (* uncaught exception *)
Arguments Done {A} a.
Arguments Exited {A} code.
Arguments Crashed {A} e.

Definition M (A : Type) : Type := State → result A * State.

Global Instance M_ret : MRet M := λ A a s, (Done a, s).

Global Instance M_bind : MBind M := λ A B f m s,
  match m s with
  | (Done a, s') => f a s'
  | (Exited c, s') => (Exited c, s')
  | (Crashed e, s') => (Crashed e, s')
  end.

Definition get : M State := λ s, (Done s, s).
Definition modify (f : State → State) : M unit := λ s, (Done tt, f s).

Definition process_exit {A} (code : Z) : M A := λ s, (Exited code, s).

(** [throw] where nothing catches. *)
Definition uncaught {A} (e : Uncaught) : M A := λ s, (Crashed e, s).

Definition emit (e : Event) : M unit :=
  modify (λ s, {| trace := trace s ++ [e];
                  ethAddress := ethAddress s; password := password s;
                  allSources := allSources s; payload := payload s;
                  spinning := spinning s |}).

Definition console_log (p : Printed) : M unit := emit (ConsoleLog p).

Definition set_credentials (a p : option string) : M unit :=
  modify (λ s, {| trace := trace s;
                  ethAddress := a; password := p;
                  allSources := allSources s; payload := payload s;
                  spinning := spinning s |}).

Definition set_allSources (o : obj jsval) : M unit :=
  modify (λ s, {| trace := trace s;
                  ethAddress := ethAddress s; password := password s;
                  allSources := o; payload := payload s;
                  spinning := spinning s |}).

Definition set_payload (d : RequestData) : M unit :=
  modify (λ s, {| trace := trace s;
                  ethAddress := ethAddress s; password := password s;
                  allSources := allSources s; payload := Some d;
                  spinning := spinning s |}).

Definition set_spinning (l : list Spinner) : M unit :=
  modify (λ s, {| trace := trace s;
                  ethAddress := ethAddress s; password := password s;
                  allSources := allSources s; payload := payload s;
                  spinning := l |}).

(** [ora({ text }).start()] *)
Definition spinner_start (sp : Spinner) (text : string) : M unit :=
  s ← get;
  emit (SpinnerStart sp text);;
  set_spinning (sp :: spinning s).

Definition spinner_halt (sp : Spinner) : M unit :=
  s ← get;
  set_spinning (List.filter (λ sp', negb (same_spinner sp' sp)) (spinning s)).

Definition spinner_succeed (sp : Spinner) (text : string) : M unit :=
  emit (SpinnerSucceed sp text);; spinner_halt sp.

Definition spinner_fail (sp : Spinner) (text : string) : M unit :=
  emit (SpinnerFail sp text);; spinner_halt sp.

Definition spinner_stop (sp : Spinner) : M unit :=
  emit (SpinnerStop sp);; spinner_halt sp.

(** [if (c) { body }] *)
Definition when (c : bool) (body : M unit) : M unit :=
  if c then body else mret tt.

End Proc.
Import Proc.

(** ** The collaborators

    Everything the script calls and does not define: the command line as
    parsed by minimist, the environment, node's [fs] and [path], and the
    modules [lib/compiler], [lib/client], [lib/report], [lib/releases] and
    truffle's profiler, none of which is part of the sources at hand.  A
    collaborator that the script wraps in [try]/[catch] can throw, one whose
    promise has a [catch] handler can reject; so can the two for which the
    design names a failure of their own, the version resolver and the
    request builder.  The others are taken to return.
    [compiler_loadSolcVersion] throws or hands the compiler's source to its
    callback; [path_resolve] is [path.resolve] on two strings. *)
Record World := {
  args : Args;
  env : gmap string string;
  cwd : string;
  package_version : string;
  path_resolve : string → string → string;
  path_dirname : string → string;
  fs_readFileSync : string → attempt string;
  releases : gmap string string;
  compiler_getSolidityVersion : string → attempt string;
  compiler_loadSolcVersion : option string → attempt string;
  Profiler_resolveAllSources :
    Resolver → list string → SolcSnapshot → settled string (obj ResolvedSource);
  compiler_getSolcInput : obj jsval → SolcInput;
  compiler_getCompiledContracts :
    SolcInput → SolcSnapshot → string → option posval → attempt CompiledData;
  client_getRequestData :
    CompiledData → list string → string → Args → attempt RequestData;
  client_getMythXReport :
    option string → option string → option string → RequestData → Z → Z →
    settled AnalysisError AnalysisResult;
  report_formatIssues : RequestData → list RawIssue → list CanonicalIssue;
  report_getFormatter : argval → list CanonicalIssue → string;
}.

(** ** The script *)

Definition dquote : string := String "034"%char EmptyString.

Definition helpText : string :=
"Minimum viable CLI for the MythX security analysis platform.

USAGE:

$ sabre [options] <solidity_file> [contract_name]

OPTIONS:
    --version                                       Print version
    --help                                          Print help message
    --mode <quick/full>                             Analysis mode (default=quick)
    --format <text/stylish/compact/table/html/json> Output format (default=text)
    --clientToolName <string>                       Override clientToolName
    --noCacheLookup                                 Deactivate MythX cache lookups
    --debug                                         Print MythX API request and response
".

Definition invalid_mode_message : string :=
  "Invalid analysis mode. Please use either " +:+ dquote +:+ "quick" +:+ dquote
  +:+ " or " +:+ dquote +:+ "full" +:+ dquote +:+ ".".

Definition invalid_format_message : string :=
  "Invalid output format. Please use " +:+ dquote +:+ "stylish" +:+ dquote
  +:+ ", " +:+ dquote +:+ "compact" +:+ dquote
  +:+ ", " +:+ dquote +:+ "table" +:+ dquote
  +:+ ", " +:+ dquote +:+ "html" +:+ dquote
  +:+ " or " +:+ dquote +:+ "json" +:+ dquote +:+ ".".

Definition trial_address : string := "0x0000000000000000000000000000000000000000".
Definition trial_password : string := "trial".

Definition modes : list string := ["quick"; "full"].
Definition formats : list string :=
  ["stylish"; "compact"; "table"; "html"; "json"; "text"].

Definition separator : string := "-------------------".

(** Lines 136-145: the polling budget, in milliseconds. *)
Definition polling_budget (m : argval) : Z * Z :=
  if loose_eq m "quick"
  then (20 * 1000, 180 * 1000)
  else (300 * 1000, 2400 * 1000).

(** Lines 110-112: [sourceList.forEach(file => allSources[file] = { content:
    resolved[file].body })].  A name taken from [Object.keys(resolved)] is
    always found in [resolved]. *)
Definition copy_source (resolved : obj ResolvedSource)
    (all : obj jsval) (file : string) : obj jsval :=
  match obj_get file resolved with
  | Some r => obj_set file (JObject [("content", JString (body r))]) all
  | None => all
  end.

Definition copy_sources (sourceList : list string)
    (resolved : obj ResolvedSource) (all : obj jsval) : obj jsval :=
  foldl (copy_source resolved) all sourceList.

(** The success line of line 174. *)
Definition no_issues_message (file contract : string) : string :=
  "✔ No errors/warnings found in " +:+ file +:+ " for contract: " +:+ contract.

Section Script.

Variable w : World.

(** [args._[0]], as text, and [args._[1]] *)
Definition arg0 : string := shown_as (positional (args w) !! 0%nat).
Definition arg1 : option posval := positional (args w) !! 1%nat.

(** Lines 69-70, for an entry file given as a string. *)
Definition solidityFilePath : string := path_resolve w (cwd w) arg0.
Definition solidityFileDir : string := path_dirname w solidityFilePath.

(** Line 69: [path.resolve] throws a [TypeError] on an argument that is no
    string, and nothing catches it. *)
Definition resolve_entry : M unit :=
  if is_string (positional (args w) !! 0%nat)
  then mret tt
  else uncaught InvalidPathArgument.

(** Lines 87-90. *)
Definition resolver : Resolver :=
  {| working_directory := solidityFileDir;
     contracts_build_directory := solidityFileDir |}.

(** Line 103. *)
Definition solcSnapshot (solcVersion solcString : string) : SolcSnapshot :=
  {| solcString := solcString;
     soljsonName :=
       "soljson-" +:+ to_string (releases w !! solcVersion) +:+ ".js" |}.

(** The object [data] refers to. *)
Definition read_payload : M RequestData :=
  s ← get; mret (default ∅ (payload s)).

(** Lines 43-67. *)
Definition check_arguments : M unit :=
  when (version (args w))
    (console_log (Plain (package_version w));; process_exit 0);;
  when (bool_decide (List.length (positional (args w)) = 0%nat) || help (args w))
    (console_log (Plain helpText);; process_exit 0);;
  when (negb (includes modes (mode (args w))))
    (console_log (Plain invalid_mode_message);; process_exit (-1));;
  when (negb (includes formats (format (args w))))
    (console_log (Plain invalid_format_message);; process_exit (-1)).

(** Lines 72-75. *)
Definition fallback_credentials : M unit :=
  s ← get;
  when (negb (truthy (ethAddress s) && truthy (password s)))
    (set_credentials (Some trial_address) (Some trial_password)).

(** Lines 79-85. *)
Definition read_input : M string :=
  emit (CallReadFileSync solidityFilePath);;
  match fs_readFileSync w solidityFilePath with
  | Returns solidityCode => mret solidityCode
  | Throws msg =>
      console_log (Plain ("Error opening input file " +:+ msg));;
      process_exit (-1)
  end.

(** Lines 156-180: the analysis promise is fulfilled. *)
Definition on_report (input : SolcInput) (compiledData : CompiledData)
    (result : AnalysisResult) : M unit :=
  spinner_stop analysisSpinner;;
  data ← read_payload;
  set_payload (<["sources" := JObject (spread (sources input))]> data);;
  when (debug (args w))
    (console_log (Plain separator);;
     console_log (Plain "MythX Response Body:
");;
     console_log (InspectResponse result);;
     console_log (Plain separator));;
  data ← read_payload;
  emit (CallFormatIssues data (issues result));;
  let uniqueIssues := report_formatIssues w data (issues result) in
  if bool_decide (List.length uniqueIssues = 0%nat)
  then console_log (Green (no_issues_message arg0 (contractName compiledData)))
  else
    emit (CallGetFormatter (format (args w)));;
    console_log (Plain (report_getFormatter w (format (args w)) uniqueIssues)).

(** Lines 181-185: the analysis promise is rejected. *)
Definition on_analysis_error (err : AnalysisError) : M unit :=
  spinner_fail analysisSpinner "Analysis failed";;
  console_log (Red (error_text err)).

(** Lines 187-191, for an error thrown in the body of lines 107-186. *)
Definition on_resolved_throw (message : string) : M unit :=
  spinner_fail solcSpinner "Resolving imports failed";;
  console_log (RedThrown message).

(** Lines 107-186: the sources are resolved. *)
Definition on_resolved (solcVersion : string) (solcSnapshot : SolcSnapshot)
    (resolved : obj ResolvedSource) : M unit :=
  let sourceList := Object_keys resolved in
  s ← get;
  set_allSources (copy_sources sourceList resolved (allSources s));;
  s ← get;
  emit (CallGetSolcInput (allSources s));;
  let input := compiler_getSolcInput w (allSources s) in
  emit (CallGetCompiledContracts input solcSnapshot solidityFilePath arg1);;
  match compiler_getCompiledContracts w input solcSnapshot solidityFilePath arg1 with
  | Throws msg =>
      console_log (Red msg);;
      process_exit 1
  | Returns compiledData =>
      spinner_succeed solcSpinner
        ("Compiled with solc v" +:+ solcVersion +:+ " successfully");;
      emit (CallGetRequestData compiledData sourceList solidityFilePath (args w));;
      match client_getRequestData w compiledData sourceList solidityFilePath
              (args w) with
      | Throws msg => on_resolved_throw msg
      | Returns built =>
          set_payload built;;
          let '(initialDelay, timeout) := polling_budget (mode (args w)) in
          data ← read_payload;
          when (debug (args w))
            (console_log (Plain separator);;
             console_log (Plain "MythX Request Body:
");;
             console_log (InspectRequest data));;
          spinner_start analysisSpinner
            ("Analyzing " +:+ contractName compiledData);;
          s ← get;
          let apiUrl := env w !! "MYTHX_API_URL" in
          emit (CallGetMythXReport apiUrl (ethAddress s) (password s) data
                  initialDelay timeout);;
          match client_getMythXReport w apiUrl (ethAddress s) (password s) data
                  initialDelay timeout with
          | Fulfilled result => on_report input compiledData result
          | Rejected err => on_analysis_error err
          end
      end
  end.

(** Lines 187-191: resolving the imports is rejected. *)
Definition on_resolve_error (err : string) : M unit :=
  spinner_fail solcSpinner "Resolving imports failed";;
  console_log (Red err).

(** Lines 101-192: the callback of [compiler.loadSolcVersion]. *)
Definition on_solc_loaded (solcVersion : string) (solcString : string) : M unit :=
  let solcSnapshot := solcSnapshot solcVersion solcString in
  emit (CallResolveAllSources resolver [solidityFilePath] solcSnapshot);;
  match Profiler_resolveAllSources w resolver [solidityFilePath] solcSnapshot with
  | Fulfilled resolved =>
      on_resolved solcVersion solcSnapshot resolved
  | Rejected err => on_resolve_error err
  end.

(** The whole script, top to bottom. *)
Definition main : M unit :=
  check_arguments;;
  resolve_entry;;
  fallback_credentials;;
  solidityCode ← read_input;
  emit (CallGetSolidityVersion solidityCode);;
  match compiler_getSolidityVersion w solidityCode with
  | Throws msg => uncaught (Thrown msg)
  | Returns solcVersion =>
      spinner_start solcSpinner ("Downloading solc v" +:+ solcVersion);;
      emit (CallLoadSolcVersion (releases w !! solcVersion));;
      match compiler_loadSolcVersion w (releases w !! solcVersion) with
      | Returns solcString =>
          on_solc_loaded solcVersion solcString
      | Throws msg =>
          spinner_fail solcSpinner
            ("Compilation with solc v" +:+ solcVersion +:+ " failed");;
          console_log (Red msg)
      end
  end.

(** Lines 17-18 and 92: the state in which the script starts. *)
Definition initial : State :=
  {| trace := [];
     ethAddress := env w !! "MYTHX_ETH_ADDRESS";
     password := env w !! "MYTHX_PASSWORD";
     allSources := [];
     payload := None;
     spinning := [] |}.

(** The exit code of the process: the argument of [process.exit], 1 for an
    uncaught exception, or 0 when the script runs to its end and no spinner
    keeps the event loop alive. *)
Definition exit_code (r : result unit) (s : State) : option Z :=
  match r with
  | Exited c => Some c
  | Crashed _ => Some 1
  | Done _ => if spinning s is [] then Some 0 else None
  end.

Definition run : option Z * State :=
  let '(r, s) := main initial in (exit_code r s, s).

(** How the script ends. *)
Definition ending : result unit := (main initial).1.

End Script.

(** ** Vocabulary for statements about runs *)

(** A JavaScript object has one property per name. *)
Definition well_formed {V} (o : obj V) : Prop := NoDup (Object_keys o).

(** The profiler resolves to JavaScript objects. *)
Definition resolves_objects (w : World) : Prop :=
  ∀ r paths solc resolved,
    Profiler_resolveAllSources w r paths solc = Fulfilled resolved →
    well_formed resolved.

(** Modelled from the spec: [client.getRequestData] lives in
    [lib/client.js], which is not part of the sources at hand.  The
    RequestBuilder puts the ordered source list it is given into the
    request, here under the property [sourceList]. *)
Definition keeps_sourceList (w : World) : Prop :=
  ∀ c sourceList path a data,
    client_getRequestData w c sourceList path a = Returns data →
    data !! "sourceList" = Some (JArray (JString <$> sourceList)).

(** The events that build a request body. *)
Definition is_request_build (e : Event) : bool :=
  match e with
  | CallGetRequestData _ _ _ _ => true
  | _ => false
  end.

(** The line with which the script announces a failed analysis. *)
Definition failure_headline : Event :=
  SpinnerFail analysisSpinner "Analysis failed".

(** The reading of "a timeout is not reported with the failure message used
    for other analysis errors": no run whose analysis is rejected by an
    elapsed deadline shows the failure headline. *)
Definition timeout_reported_distinctly : Prop :=
  ∀ w apiUrl a p data d t text,
    CallGetMythXReport apiUrl a p data d t ∈ trace (run w).2 →
    client_getMythXReport w apiUrl a p data d t = Rejected (DeadlineElapsed text) →
    failure_headline ∉ trace (run w).2.

(** ** Issue normalisation *)

Module IssueNormalizer.

(** Modelled from the spec: the source map as the normaliser consults it,
    from an opaque location reference to an index into the source list, a
    line and a column. *)
Definition SourceMap := gmap nat (nat * nat * nat).

(** Modelled from the spec: location resolution.  A reference with no
    entry in the source map, or whose entry names no file of the source
    list, gets the sentinel location: entry file, line 0, column 0. *)
Definition resolveLocation (sourceMap : SourceMap) (sourceList : list string)
    (entryFile : string) (ref : nat) : string * nat * nat :=
  match sourceMap !! ref with
  | Some (i, l, c) =>
      match sourceList !! i with
      | Some file => (file, l, c)
      | None => (entryFile, 0%nat, 0%nat)
      end
  | None => (entryFile, 0%nat, 0%nat)
  end.

(** Modelled from the spec: the canonical issue of a raw issue. *)
Definition resolve (sourceMap : SourceMap) (sourceList : list string)
    (entryFile : string) (r : RawIssue) : CanonicalIssue :=
  let '(file, l, c) := resolveLocation sourceMap sourceList entryFile (locationRef r) in
  {| ruleId := raw_ruleId r; severity := raw_severity r;
     filePath := file; line := l; column := c;
     message := raw_message r |}.

Definition Key : Type := string * string * nat * nat.

Definition key (c : CanonicalIssue) : Key :=
  (ruleId c, filePath c, line c, column c).

(** Modelled from the spec: insertion into the working set keyed by rule,
    file, line and column; [seen] holds the keys already taken, and the
    first issue seen with a key wins. *)
Fixpoint dedup (seen : gset Key) (l : list CanonicalIssue) : list CanonicalIssue :=
  match l with
  | [] => []
  | c :: l' =>
      if decide (key c ∈ seen) then dedup seen l'
      else c :: dedup ({[key c]} ∪ seen) l'
  end.

(** Modelled from the spec: the order of the report, by file, then line,
    then column. *)
Definition location_le (a b : CanonicalIssue) : bool :=
  match String.compare (filePath a) (filePath b) with
  | Lt => true
  | Gt => false
  | Eq =>
      if decide (line a = line b)
      then bool_decide (column a ≤ column b)%nat
      else bool_decide (line a < line b)%nat
  end.

(** Stable insertion: [c] goes before the first issue that is not before it. *)
Fixpoint place (c : CanonicalIssue) (l : list CanonicalIssue) : list CanonicalIssue :=
  match l with
  | [] => [c]
  | d :: l' => if location_le c d then c :: d :: l' else d :: place c l'
  end.

Definition sort_issues (l : list CanonicalIssue) : list CanonicalIssue :=
  foldr place [] l.

(** Modelled from the spec: [report.formatIssues] lives in [lib/report.js],
    which is not part of the sources at hand.  Following the component
    design of the IssueNormalizer, every raw issue is resolved, the resolved
    issues are deduplicated in arrival order, and the result is sorted, ties
    staying in arrival order. *)
Definition formatIssues (sourceMap : SourceMap) (sourceList : list string)
    (entryFile : string) (raw : list RawIssue) : list CanonicalIssue :=
  sort_issues (dedup ∅ (resolve sourceMap sourceList entryFile <$> raw)).

End IssueNormalizer.

(** ** Concrete runs *)

Module Sample.

Definition quick_args : Args :=
  {| positional := [PStr "Token.sol"]; version := false; help := false;
     noCacheLookup := false; debug := false;
     mode := AStr "quick"; format := AStr "text"; clientToolName := None |}.

Definition with_mode (m : argval) (a : Args) : Args :=
  {| positional := positional a; version := version a; help := help a;
     noCacheLookup := noCacheLookup a; debug := debug a;
     mode := m; format := format a; clientToolName := clientToolName a |}.

Definition with_version (a : Args) : Args :=
  {| positional := positional a; version := true; help := help a;
     noCacheLookup := noCacheLookup a; debug := debug a;
     mode := mode a; format := format a; clientToolName := clientToolName a |}.

Definition token_path : string := "/work/Token.sol".
Definition math_path : string := "/work/SafeMath.sol".

Definition token_source : string :=
  "pragma solidity ^0.5.0; import './SafeMath.sol'; contract Token {}".
Definition math_source : string :=
  "pragma solidity ^0.5.0; library SafeMath {}".

Definition token_resolved : obj ResolvedSource :=
  [(token_path, {| body := token_source |});
   (math_path, {| body := math_source |})].

Definition token_compiled : CompiledData :=
  {| contractName := "Token"; compiled := JString "0x6080" |}.

Definition overflow (ref : nat) : RawIssue :=
  {| raw_ruleId := "SWC-101"; raw_severity := High;
     locationRef := ref; raw_message := "Integer overflow" |}.

Definition reentrancy (ref : nat) : RawIssue :=
  {| raw_ruleId := "SWC-107"; raw_severity := Medium;
     locationRef := ref; raw_message := "Reentrancy" |}.

Definition token_map : IssueNormalizer.SourceMap :=
  {[ 0%nat := (0%nat, 3%nat, 7%nat); 1%nat := (1%nat, 2%nat, 1%nat) ]}.

Definition request (c : CompiledData) (sourceList : list string) (a : Args)
    : RequestData :=
  {[ "contractName" := JString (contractName c);
     "sourceList" := JArray (JString <$> sourceList);
     "noCacheLookup" := JBool (noCacheLookup a) ]}.

(** A world in which the compiler loads and the imports resolve; reading
    the entry file yields [code], compiling yields [artifact], the service
    settles with [answer], and the environment holds [vars]. *)
Definition world (a : Args) (vars : gmap string string)
    (code : attempt string) (artifact : attempt CompiledData)
    (answer : settled AnalysisError AnalysisResult) : World :=
  {| args := a;
     env := vars;
     cwd := "/work";
     package_version := "0.9.0";
     path_resolve := λ dir file, dir +:+ "/" +:+ file;
     path_dirname := λ _, "/work";
     fs_readFileSync := λ _, code;
     releases := {[ "0.5.0" := "v0.5.0+commit.1d4f565a" ]};
     compiler_getSolidityVersion := λ _, Returns "0.5.0";
     compiler_loadSolcVersion := λ _, Returns "soljson";
     Profiler_resolveAllSources := λ _ _ _, Fulfilled token_resolved;
     compiler_getSolcInput := λ srcs,
       {| sources := srcs; settings := JUndefined |};
     compiler_getCompiledContracts := λ _ _ _ _, artifact;
     client_getRequestData := λ c sourceList _ a',
       Returns (request c sourceList a');
     client_getMythXReport := λ _ _ _ _ _ _, answer;
     report_formatIssues := λ _ raw,
       IssueNormalizer.formatIssues token_map [token_path; math_path]
         token_path raw;
     report_getFormatter := λ _ l, "issues";
  |}.

Definition clean : settled AnalysisError AnalysisResult :=
  Fulfilled {| issues := [] |}.

(** The entry file compiles and the service finds nothing. *)
Definition clean_run : World :=
  world quick_args ∅ (Returns token_source) (Returns token_compiled) clean.

(** The request body of [clean_run] as submitted. *)
Definition clean_request : RequestData :=
  request token_compiled [token_path; math_path] quick_args.

(** The entry file has a syntax error. *)
Definition broken_run : World :=
  world quick_args ∅ (Returns token_source)
    (Throws "ParserError: Expected ';' but got '}'") clean.

(** The service rejects the submission. *)
Definition rejected_run : World :=
  world quick_args ∅ (Returns token_source) (Returns token_compiled)
    (Rejected (SubmissionRejected "Error: Invalid login")).

(** The deadline of the analysis client elapses. *)
Definition timed_out_run : World :=
  world quick_args ∅ (Returns token_source) (Returns token_compiled)
    (Rejected (DeadlineElapsed "Error: Timeout reached after 180 seconds")).

(** [--version] together with a mode that does not exist. *)
Definition version_run : World :=
  world (with_version (with_mode (AStr "deep") quick_args)) ∅
    (Returns token_source) (Returns token_compiled) clean.

(** A mode that does not exist. *)
Definition deep_run : World :=
  world (with_mode (AStr "deep") quick_args) ∅
    (Returns token_source) (Returns token_compiled) clean.

(** Only the address is set in the environment. *)
Definition half_configured_run : World :=
  world quick_args {[ "MYTHX_ETH_ADDRESS" := "0x1234" ]}
    (Returns token_source) (Returns token_compiled) clean.

End Sample.

(** ** Further vocabulary *)

(** The place of a stage call in the pipeline; console output and spinner
    transitions are no stages. *)
Definition stage_rank (e : Event) : option nat :=
  match e with
  | CallReadFileSync _ => Some 0%nat
  | CallGetSolidityVersion _ => Some 1%nat
  | CallLoadSolcVersion _ => Some 2%nat
  | CallResolveAllSources _ _ _ => Some 3%nat
  | CallGetSolcInput _ => Some 4%nat
  | CallGetCompiledContracts _ _ _ _ => Some 5%nat
  | CallGetRequestData _ _ _ _ => Some 6%nat
  | CallGetMythXReport _ _ _ _ _ _ => Some 7%nat
  | CallFormatIssues _ _ => Some 8%nat
  | CallGetFormatter _ => Some 9%nat
  | _ => None
  end.

(** The stages of a trace, in the order in which they were called. *)
Definition stages (l : list Event) : list nat := omap stage_rank l.

(** The output of [util.inspect]: the request or the response body. *)
Definition is_body_dump (e : Event) : bool :=
  match e with
  | ConsoleLog (InspectRequest _) | ConsoleLog (InspectResponse _) => true
  | _ => false
  end.

(** What a stage is given of the command line: the resolved path of the
    entry file, the resolver rooted in its directory, the contract name of
    [args._[1]], the parsed arguments. *)
Definition given_entry (w : World) (e : Event) : Prop :=
  match e with
  | CallReadFileSync p => p = solidityFilePath w
  | CallResolveAllSources r paths _ =>
      r = resolver w ∧ paths = [solidityFilePath w]
  | CallGetCompiledContracts _ _ p name =>
      p = solidityFilePath w ∧ name = arg1 w
  | CallGetRequestData _ _ p a => p = solidityFilePath w ∧ a = args w
  | _ => True
  end.

(** The entry of [allSources] for a resolved source. *)
Definition source_entry (r : ResolvedSource) : jsval :=
  JObject [("content", JString (body r))].

(** ** Further concrete runs *)

Module Cases.

Definition with_debug (a : Args) : Args :=
  {| positional := positional a; version := version a; help := help a;
     noCacheLookup := noCacheLookup a; debug := true;
     mode := mode a; format := format a; clientToolName := clientToolName a |}.

Definition with_positional (l : list posval) (a : Args) : Args :=
  {| positional := l; version := version a; help := help a;
     noCacheLookup := noCacheLookup a; debug := debug a;
     mode := mode a; format := format a; clientToolName := clientToolName a |}.

Definition with_format (f : argval) (a : Args) : Args :=
  {| positional := positional a; version := version a; help := help a;
     noCacheLookup := noCacheLookup a; debug := debug a;
     mode := mode a; format := f; clientToolName := clientToolName a |}.

(** Like [Sample.world], with the release table, the loading of the compiler
    and the resolution of the imports left open as well. *)
Definition world (a : Args) (vars rels : gmap string string)
    (code load : attempt string)
    (imports : settled string (obj ResolvedSource))
    (artifact : attempt CompiledData)
    (answer : settled AnalysisError AnalysisResult) : World :=
  {| args := a;
     env := vars;
     cwd := "/work";
     package_version := "0.9.0";
     path_resolve := λ dir file, dir +:+ "/" +:+ file;
     path_dirname := λ _, "/work";
     fs_readFileSync := λ _, code;
     releases := rels;
     compiler_getSolidityVersion := λ _, Returns "0.5.0";
     compiler_loadSolcVersion := λ _, load;
     Profiler_resolveAllSources := λ _ _ _, imports;
     compiler_getSolcInput := λ srcs,
       {| sources := srcs; settings := JUndefined |};
     compiler_getCompiledContracts := λ _ _ _ _, artifact;
     client_getRequestData := λ c sourceList _ a',
       Returns (Sample.request c sourceList a');
     client_getMythXReport := λ _ _ _ _ _ _, answer;
     report_formatIssues := λ _ raw,
       IssueNormalizer.formatIssues Sample.token_map
         [Sample.token_path; Sample.math_path] Sample.token_path raw;
     report_getFormatter := λ fmt l,
       match fmt with
       | AStr s => s +:+ " report"
       | AArr _ => "report"
       end;
  |}.

Definition known_releases : gmap string string :=
  {[ "0.5.0" := "v0.5.0+commit.1d4f565a" ]}.

Definition pipeline (a : Args) (vars : gmap string string)
    (answer : settled AnalysisError AnalysisResult) : World :=
  world a vars known_releases (Returns Sample.token_source) (Returns "soljson")
    (Fulfilled Sample.token_resolved) (Returns Sample.token_compiled) answer.

(** No entry file on the command line, and a format that does not exist. *)
Definition bare_run : World :=
  pipeline (with_format (AStr "pdf") (with_positional [] Sample.quick_args))
    ∅ Sample.clean.

(** The entry file cannot be opened. *)
Definition unreadable_run : World :=
  world Sample.quick_args ∅ known_releases
    (Throws "ENOENT: no such file or directory, open '/work/Token.sol'")
    (Returns "soljson") (Fulfilled Sample.token_resolved)
    (Returns Sample.token_compiled) Sample.clean.

(** The compiler cannot be loaded. *)
Definition unloadable_run : World :=
  world Sample.quick_args ∅ known_releases (Returns Sample.token_source)
    (Throws "Cannot load soljson") (Fulfilled Sample.token_resolved)
    (Returns Sample.token_compiled) Sample.clean.

(** An import cannot be resolved. *)
Definition unresolved_run : World :=
  world Sample.quick_args ∅ known_releases (Returns Sample.token_source)
    (Returns "soljson")
    (Rejected "Error: Could not find ./SafeMath.sol from any sources")
    (Returns Sample.token_compiled) Sample.clean.

(** The pragma names a version that has no release. *)
Definition unreleased_run : World :=
  world Sample.quick_args ∅ ∅ (Returns Sample.token_source)
    (Returns "soljson") (Fulfilled Sample.token_resolved)
    (Returns Sample.token_compiled) Sample.clean.

(** The service reports an overflow. *)
Definition findings : settled AnalysisError AnalysisResult :=
  Fulfilled {| issues := [Sample.overflow 0] |}.

Definition findings_run : World := pipeline Sample.quick_args ∅ findings.

(** The same with [--debug]. *)
Definition debug_run : World :=
  pipeline (with_debug Sample.quick_args) ∅ findings.

(** The password is set to the empty string. *)
Definition empty_password_run : World :=
  pipeline Sample.quick_args
    {[ "MYTHX_ETH_ADDRESS" := "0x1234"; "MYTHX_PASSWORD" := "" ]} Sample.clean.

(** Both credentials and the endpoint are set. *)
Definition configured_run : World :=
  pipeline Sample.quick_args
    {[ "MYTHX_ETH_ADDRESS" := "0x1234"; "MYTHX_PASSWORD" := "secret";
       "MYTHX_API_URL" := "https://api.mythx.io" ]} Sample.clean.

(** The entry file is given as [123], which minimist hands over as a
    number. *)
Definition numeric_run : World :=
  pipeline (with_positional [PNum "123"] Sample.quick_args) ∅ Sample.clean.

(** A world in which all stages succeed but the version resolver and the
    request builder, which do as [pragma] and [built] say. *)
Definition stubbed (pragma : attempt string)
    (built : attempt RequestData) : World :=
  {| args := Sample.quick_args;
     env := ∅;
     cwd := "/work";
     package_version := "0.9.0";
     path_resolve := λ dir file, dir +:+ "/" +:+ file;
     path_dirname := λ _, "/work";
     fs_readFileSync := λ _, Returns Sample.token_source;
     releases := known_releases;
     compiler_getSolidityVersion := λ _, pragma;
     compiler_loadSolcVersion := λ _, Returns "soljson";
     Profiler_resolveAllSources := λ _ _ _, Fulfilled Sample.token_resolved;
     compiler_getSolcInput := λ srcs,
       {| sources := srcs; settings := JUndefined |};
     compiler_getCompiledContracts := λ _ _ _ _, Returns Sample.token_compiled;
     client_getRequestData := λ _ _ _ _, built;
     client_getMythXReport := λ _ _ _ _ _ _, Sample.clean;
     report_formatIssues := λ _ _, [];
     report_getFormatter := λ _ _, "report";
  |}.

(** The entry file declares no compiler version. *)
Definition no_pragma_run : World :=
  stubbed (Throws "No version pragma found") (Returns Sample.clean_request).

(** The request builder finds the artifact incomplete. *)
Definition incomplete_run : World :=
  stubbed (Returns "0.5.0") (Throws "Incomplete artifact: no bytecode").

End Cases.

(** ** Proof support *)

Ltac unfold_script :=
  unfold run, ending, main, check_arguments, resolve_entry,
    fallback_credentials, read_input,
    on_solc_loaded, on_resolve_error, on_resolved, on_resolved_throw,
    on_report, on_analysis_error, read_payload, spinner_start,
    spinner_succeed, spinner_fail, spinner_stop, spinner_halt, console_log,
    emit, set_credentials, set_allSources, set_payload, set_spinning,
    process_exit, uncaught, when, get, modify, initial, exit_code,
    polling_budget;
  unfold mbind, M_bind, mret, M_ret.

Ltac simple_scrutinee b :=
  lazymatch b with
  | context [ if _ then _ else _ ] => fail
  | context [ match _ with _ => _ end ] => fail
  | _ => idtac
  end.

(** One decision of the script: a condition, a call that may throw, or a
    promise that may be rejected. *)
Ltac case_step :=
  match goal with
  | |- context [ if ?b then _ else _ ] =>
      simple_scrutinee b; destruct b eqn:?
  | |- context [ match ?x with Returns _ => _ | Throws _ => _ end ] =>
      simple_scrutinee x; destruct x eqn:?
  | |- context [ match ?x with Fulfilled _ => _ | Rejected _ => _ end ] =>
      simple_scrutinee x; destruct x eqn:?
  end.

(** All the paths through the script. *)
Ltac script_cases := unfold_script; cbn; repeat (case_step; cbn).

(** An event known to be in a trace that is written out. *)
Ltac in_trace H :=
  repeat (apply elem_of_cons in H as [H|H];
          [first [discriminate H | injection H as ?; subst] |]);
  try (apply elem_of_nil in H; destruct H).

Ltac not_in_trace :=
  let H := fresh in intros H; in_trace H.

(** An event of a run of a concrete world. *)
Ltac trace_has :=
  vm_compute; repeat first [apply list_elem_of_here | apply list_elem_of_further].

(** ** Objects *)

Section Objects.
Context {V : Type}.
Implicit Types (o : obj V) (k : string) (v : V).

Lemma obj_get_key k o : k ∈ Object_keys o → is_Some (obj_get k o).
Proof.
  unfold Object_keys. induction o as [|[k' v'] o IH]; cbn.
  - by intros ?%elem_of_nil.
  - intros Hin. case_decide; [eauto|]. apply IH.
    apply elem_of_cons in Hin as [-> | ?]; done.
Qed.

Lemma obj_set_new_key k v o :
  k ∉ Object_keys o → Object_keys (obj_set k v o) = (Object_keys o ++ [k])%list.
Proof.
  unfold Object_keys. induction o as [|[k' v'] o IH]; cbn; [done|].
  intros [Hne Hnin]%not_elem_of_cons. case_decide; [congruence|].
  cbn. by rewrite IH.
Qed.

Lemma obj_set_old_key k v o :
  k ∈ Object_keys o → Object_keys (obj_set k v o) = Object_keys o.
Proof.
  unfold Object_keys. induction o as [|[k' v'] o IH]; cbn.
  - by intros ?%elem_of_nil.
  - intros Hin. case_decide; [done|]. cbn. f_equal. apply IH.
    apply elem_of_cons in Hin as [-> | ?]; done.
Qed.

Lemma obj_set_well_formed k v o : well_formed o → well_formed (obj_set k v o).
Proof.
  unfold well_formed. intros Hwf.
  destruct (decide (k ∈ Object_keys o)) as [Hin | Hnin].
  - by rewrite obj_set_old_key.
  - rewrite obj_set_new_key by done. apply NoDup_app. split_and!; [done | | apply NoDup_singleton].
    intros k' Hk' ->%list_elem_of_singleton. done.
Qed.

End Objects.

(** The loop of lines 110-112 appends the names it is given, in order. *)
Lemma copy_sources_keys (resolved : obj ResolvedSource)
    (names : list string) (all : obj jsval) :
  (∀ k, k ∈ names → k ∈ Object_keys resolved) →
  NoDup (Object_keys all ++ names) →
  Object_keys (copy_sources names resolved all) = (Object_keys all ++ names)%list.
Proof.
  unfold copy_sources. revert all.
  induction names as [|k names IH]; intros all Hin Hnd.
  - cbn. by rewrite app_nil_r.
  - destruct (obj_get_key k resolved) as [r Hr]; [apply Hin; left|].
    assert (Hk : k ∉ Object_keys all).
    { apply NoDup_app in Hnd as (_ & Hdisj & _).
      intros ?. eapply Hdisj; [done | left]. }
    assert (Hstep : copy_source resolved all k
                    = obj_set k (JObject [("content", JString (body r))]) all)
      by (unfold copy_source; by rewrite Hr).
    change (Object_keys
              (foldl (copy_source resolved) (copy_source resolved all k) names)
            = (Object_keys all ++ k :: names)%list).
    rewrite Hstep, IH.
    + rewrite obj_set_new_key by done. by rewrite <-app_assoc.
    + intros k' ?. apply Hin. by right.
    + rewrite obj_set_new_key by done. by rewrite <-app_assoc.
Qed.

Lemma copy_all_sources_keys (resolved : obj ResolvedSource) :
  well_formed resolved →
  Object_keys (copy_sources (Object_keys resolved) resolved [])
  = Object_keys resolved.
Proof. intros Hwf. by rewrite copy_sources_keys. Qed.

(** ** Arguments and credentials *)

Lemma includes_modes m :
  includes modes m = true → m = AStr "quick" ∨ m = AStr "full".
Proof.
  destruct m as [s|l]; [|done]. cbn. intros H%bool_decide_eq_true.
  apply elem_of_cons in H as [-> | H]; [by left |].
  apply elem_of_cons in H as [-> | H]; [by right |].
  by apply elem_of_nil in H.
Qed.

(** Past line 57 the loose comparison of line 139 tells the two modes apart. *)
Lemma mode_after_checks m :
  negb (includes modes m) = false →
  if loose_eq m "quick" then m = AStr "quick" else m = AStr "full".
Proof.
  intros H%negb_false_iff. destruct (includes_modes _ H) as [-> | ->]; done.
Qed.

Lemma truthy_is_Some v : truthy v = true → is_Some v.
Proof. destruct v; [eauto | done]. Qed.

Lemma credentials_kept (a p : option string) :
  negb (truthy a && truthy p) = false → is_Some a ∧ is_Some p.
Proof.
  intros H%negb_false_iff%andb_true_iff.
  destruct H; split; by apply truthy_is_Some.
Qed.

(** ** The process exits *)

(** On every path through the script the process comes to an end:
    [process.exit] is called, an exception goes uncaught, or the script
    finishes with no spinner left spinning. *)
Lemma run_exits w : is_Some (run w).1.
Proof. script_cases; eauto. Qed.

(** The exit codes of the script: 0, 1 and -1, where 1 is also the status
    of a process ended by an uncaught exception. *)
Lemma exit_codes w :
  (run w).1 = Some 0 ∨ (run w).1 = Some 1 ∨ (run w).1 = Some (-1).
Proof. script_cases; auto. Qed.

(** No run builds a second request body. *)
Lemma request_built_at_most_once w :
  (List.length (List.filter is_request_build (trace (run w).2)) ≤ 1)%nat.
Proof. script_cases; lia. Qed.

(** ** The polling budget *)

(** C1: whenever the analysis client is invoked, the polling budget it is
    given follows from the mode: 20000 ms initial delay and 180000 ms timeout
    when the mode is quick, otherwise the mode is full and the budget is
    300000 ms and 2400000 ms. *)
Theorem polling_budget_by_mode w apiUrl a p data d t :
  CallGetMythXReport apiUrl a p data d t ∈ trace (run w).2 →
  (mode (args w) = AStr "quick" ∧ d = 20000 ∧ t = 180000)
  ∨ (mode (args w) = AStr "full" ∧ d = 300000 ∧ t = 2400000).
Proof.
  script_cases; intros H; in_trace H;
    match goal with
    | Hm : negb (includes modes _) = false, Hq : loose_eq _ _ = _ |- _ =>
        apply mode_after_checks in Hm; rewrite Hq in Hm
    end; first [left; by repeat split | right; by repeat split].
Qed.

Lemma polling_budget_by_mode_witness :
  CallGetMythXReport None (Some trial_address) (Some trial_password)
    Sample.clean_request 20000 180000 ∈ trace (run Sample.clean_run).2
  ∧ ((mode (args Sample.clean_run) = AStr "quick" ∧ 20000 = 20000 ∧ 180000 = 180000)
     ∨ (mode (args Sample.clean_run) = AStr "full" ∧ 20000 = 300000 ∧ 180000 = 2400000)).
Proof.
  assert (H : CallGetMythXReport None (Some trial_address) (Some trial_password)
                Sample.clean_request 20000 180000 ∈ trace (run Sample.clean_run).2)
    by trace_has.
  split; [exact H | exact (polling_budget_by_mode _ _ _ _ _ _ _ H)].
Defined.

(** ** Compilation errors *)

(** C2: when compiling the entry file reports an error, the diagnostic text
    is the last thing printed, the process exits with code 1, and the
    analysis client is never invoked. *)
Theorem compilation_error_exits_1 w input solc path name msg :
  CallGetCompiledContracts input solc path name ∈ trace (run w).2 →
  compiler_getCompiledContracts w input solc path name = Throws msg →
  (run w).1 = Some 1
  ∧ last (trace (run w).2) = Some (ConsoleLog (Red msg))
  ∧ ∀ apiUrl a p data d t,
      CallGetMythXReport apiUrl a p data d t ∉ trace (run w).2.
Proof.
  script_cases; intros H Hthrow; in_trace H; try congruence.
  all: match goal with
       | Hc : compiler_getCompiledContracts _ _ _ _ _ = Throws _ |- _ =>
           rewrite Hc in Hthrow; injection Hthrow as ->
       end.
  all: split_and!; [done | done | intros; not_in_trace].
Qed.

Lemma compilation_error_exits_1_witness :
  let w := Sample.broken_run in
  let input := compiler_getSolcInput w
                 (copy_sources (Object_keys Sample.token_resolved)
                    Sample.token_resolved []) in
  let solc := solcSnapshot w "0.5.0" "soljson" in
  let msg := "ParserError: Expected ';' but got '}'" in
  CallGetCompiledContracts input solc Sample.token_path None ∈ trace (run w).2
  ∧ compiler_getCompiledContracts w input solc Sample.token_path None = Throws msg
  ∧ (run w).1 = Some 1
  ∧ last (trace (run w).2) = Some (ConsoleLog (Red msg))
  ∧ ∀ apiUrl a p data d t,
      CallGetMythXReport apiUrl a p data d t ∉ trace (run w).2.
Proof.
  intros w input solc msg.
  assert (H : CallGetCompiledContracts input solc Sample.token_path None
              ∈ trace (run w).2) by trace_has.
  assert (Hthrow : compiler_getCompiledContracts w input solc Sample.token_path None
                   = Throws msg) by reflexivity.
  split; [exact H | split; [exact Hthrow |]].
  exact (compilation_error_exits_1 w input solc Sample.token_path None msg H Hthrow).
Defined.

(** ** Rejected invocations *)

(** C3, as stated, fails: with [--version] the script prints the version
    and exits with code 0 before it looks at the mode, so a mode outside
    quick and full does not lead to exit code -1. *)
Lemma invalid_mode_behind_version :
  includes modes (mode (args Sample.version_run)) = false
  ∧ (run Sample.version_run).1 = Some 0
  ∧ (run Sample.version_run).1 ≠ Some (-1).
Proof. by vm_compute. Qed.

(** C3, amended: an invocation that asks for neither the version nor the
    help and names an entry file, and whose mode is outside quick and full,
    or whose format is outside the six formats, or whose entry file, given
    as a string, cannot be read, prints the matching error message and exits
    with code -1; the only stage it may have performed is the attempt to
    read the file.  (An entry file that minimist hands over as a number is
    left out: [path.resolve] throws on it before the file is read.) *)
Theorem invalid_invocation_exits w :
  version (args w) = false →
  help (args w) = false →
  positional (args w) ≠ [] →
  includes modes (mode (args w)) = false
  ∨ includes formats (format (args w)) = false
  ∨ (∃ file msg,
       positional (args w) !! 0%nat = Some (PStr file)
       ∧ fs_readFileSync w (solidityFilePath w) = Throws msg) →
  (run w).1 = Some (-1)
  ∧ (trace (run w).2 = [ConsoleLog (Plain invalid_mode_message)]
     ∨ trace (run w).2 = [ConsoleLog (Plain invalid_format_message)]
     ∨ ∃ msg, fs_readFileSync w (solidityFilePath w) = Throws msg
         ∧ trace (run w).2 =
             [CallReadFileSync (solidityFilePath w);
              ConsoleLog (Plain ("Error opening input file " +:+ msg))]).
Proof.
  intros Hv Hh Hp Hbad.
  assert (Hguard : bool_decide (List.length (positional (args w)) = 0%nat)
                   || help (args w) = false).
  { rewrite Hh, orb_false_r. apply bool_decide_eq_false.
    by destruct (positional (args w)). }
  unfold_script. cbn. rewrite Hv, Hguard. cbn.
  destruct (includes modes (mode (args w))) eqn:Hm; cbn; [|by auto].
  destruct (includes formats (format (args w))) eqn:Hf; cbn; [|by auto].
  destruct Hbad as [? | [? | (file & msg & Hfile & Hread)]]; [done.. |].
  rewrite Hfile. cbn.
  case_step; cbn; rewrite Hread; cbn; eauto 10.
Qed.

Lemma invalid_invocation_exits_witness :
  let w := Cases.unreadable_run in
  version (args w) = false
  ∧ help (args w) = false
  ∧ positional (args w) ≠ []
  ∧ positional (args w) !! 0%nat = Some (PStr "Token.sol")
  ∧ fs_readFileSync w (solidityFilePath w)
    = Throws "ENOENT: no such file or directory, open '/work/Token.sol'"
  ∧ (run w).1 = Some (-1)
  ∧ (trace (run w).2 = [ConsoleLog (Plain invalid_mode_message)]
     ∨ trace (run w).2 = [ConsoleLog (Plain invalid_format_message)]
     ∨ ∃ msg, fs_readFileSync w (solidityFilePath w) = Throws msg
         ∧ trace (run w).2 =
             [CallReadFileSync (solidityFilePath w);
              ConsoleLog (Plain ("Error opening input file " +:+ msg))]).
Proof.
  intros w.
  assert (Hp : positional (args w) ≠ []) by discriminate.
  split_and!;
    [reflexivity | reflexivity | exact Hp | reflexivity | reflexivity | |];
    apply (invalid_invocation_exits w eq_refl eq_refl Hp
             (or_intror (or_intror
                (ex_intro _ "Token.sol" (ex_intro _ _ (conj eq_refl eq_refl)))))).
Defined.

(** ** The request body *)

(** C4, as stated, fails: once the analysis has succeeded the script assigns
    [data.sources], so the object that was submitted is not what it was. *)
Lemma request_payload_mutated :
  CallGetMythXReport None (Some trial_address) (Some trial_password)
    Sample.clean_request 20000 180000 ∈ trace (run Sample.clean_run).2
  ∧ payload (run Sample.clean_run).2 ≠ Some Sample.clean_request.
Proof.
  split; [trace_has|].
  intros Heq.
  assert (Hs : (payload (run Sample.clean_run).2 ≫= λ m, m !! "sources") = None)
    by (rewrite Heq; reflexivity).
  vm_compute in Hs. discriminate Hs.
Qed.

(** C4, amended: the request body is built once per invocation, by the one
    call of [client.getRequestData]; after it has been submitted it stays as
    it was when the analysis is rejected, and when the analysis succeeds its
    [sources] property, and nothing else, is replaced by a copy of the
    sources of the compiler input. *)
Theorem request_payload_after_submission w apiUrl a p data d t :
  CallGetMythXReport apiUrl a p data d t ∈ trace (run w).2 →
  List.length (List.filter is_request_build (trace (run w).2)) = 1%nat
  ∧ (∃ c sourceList,
       CallGetRequestData c sourceList (solidityFilePath w) (args w)
         ∈ trace (run w).2
       ∧ client_getRequestData w c sourceList (solidityFilePath w) (args w)
         = Returns data)
  ∧ match client_getMythXReport w apiUrl a p data d t with
    | Rejected _ => payload (run w).2 = Some data
    | Fulfilled _ =>
        ∃ input solc name,
          CallGetCompiledContracts input solc (solidityFilePath w) name
            ∈ trace (run w).2
          ∧ payload (run w).2
            = Some (<["sources" := JObject (sources input)]> data)
    end
  ∧ ∃ final,
      payload (run w).2 = Some final
      ∧ ∀ k, k ≠ "sources" → final !! k = data !! k.
Proof.
  script_cases; intros H; in_trace H; try congruence.
  all: split; [reflexivity|].
  all: split; [do 2 eexists; split; [|eassumption];
               repeat first [apply list_elem_of_here | apply list_elem_of_further] |].
  all: split;
    [ first [ reflexivity
            | do 3 eexists; split; [|reflexivity];
              repeat first [apply list_elem_of_here | apply list_elem_of_further] ]
    | eexists; split; [reflexivity|];
      intros k Hk; first [reflexivity | by rewrite lookup_insert_ne] ].
Qed.

Lemma request_payload_after_submission_witness :
  let w := Sample.clean_run in
  let data := Sample.clean_request in
  CallGetMythXReport None (Some trial_address) (Some trial_password) data
    20000 180000 ∈ trace (run w).2
  ∧ ∃ final,
      payload (run w).2 = Some final
      ∧ ∀ k, k ≠ "sources" → final !! k = data !! k.
Proof.
  intros w data.
  assert (H : CallGetMythXReport None (Some trial_address) (Some trial_password)
                data 20000 180000 ∈ trace (run w).2) by trace_has.
  split; [exact H|].
  exact (proj2 (proj2 (proj2 (request_payload_after_submission _ _ _ _ _ _ _ H)))).
Defined.

(** ** Failed analyses *)

(** C5: the code does not do what the claim says.  When the analysis promise
    is rejected the script reports the failure and runs to its end, and the
    process exits with code 0. *)
Theorem analysis_rejection_exits_0 w apiUrl a p data d t err :
  CallGetMythXReport apiUrl a p data d t ∈ trace (run w).2 →
  client_getMythXReport w apiUrl a p data d t = Rejected err →
  (run w).1 = Some 0.
Proof.
  script_cases; intros H Hrej; in_trace H; congruence.
Qed.

Lemma analysis_rejection_exits_0_witness :
  let w := Sample.rejected_run in
  let err := SubmissionRejected "Error: Invalid login" in
  CallGetMythXReport None (Some trial_address) (Some trial_password)
    Sample.clean_request 20000 180000 ∈ trace (run w).2
  ∧ client_getMythXReport w None (Some trial_address) (Some trial_password)
      Sample.clean_request 20000 180000 = Rejected err
  ∧ (run w).1 = Some 0.
Proof.
  intros w err.
  assert (H : CallGetMythXReport None (Some trial_address) (Some trial_password)
                Sample.clean_request 20000 180000 ∈ trace (run w).2) by trace_has.
  split_and!; [exact H | reflexivity |].
  exact (analysis_rejection_exits_0 w _ _ _ _ _ _ err H eq_refl).
Defined.

(** C9, as stated, fails: a run whose analysis is rejected because the
    deadline elapsed shows the same failure headline as any other rejected
    analysis. *)
Lemma timeout_shows_failure_headline : ¬ timeout_reported_distinctly.
Proof.
  intros Hclaim.
  apply (Hclaim Sample.timed_out_run None (Some trial_address)
           (Some trial_password) Sample.clean_request 20000 180000
           "Error: Timeout reached after 180 seconds").
  - trace_has.
  - reflexivity.
  - unfold failure_headline. trace_has.
Qed.

(** C9, amended: however the analysis promise is rejected, by an elapsed
    deadline or by any other error, the script reports it in the same way:
    right after the submission the analysis spinner fails with the headline
    "Analysis failed" and the text of the error is printed in red, and
    nothing follows.  A timeout differs from another failure only in the text
    of the error the analysis client rejects with. *)
Theorem rejection_report w apiUrl a p data d t err :
  CallGetMythXReport apiUrl a p data d t ∈ trace (run w).2 →
  client_getMythXReport w apiUrl a p data d t = Rejected err →
  ∃ before,
    trace (run w).2 =
      (before ++ [CallGetMythXReport apiUrl a p data d t;
                  failure_headline;
                  ConsoleLog (Red (error_text err))])%list.
Proof.
  script_cases; intros H Hrej; in_trace H; try congruence.
  all: match goal with
       | Hc : client_getMythXReport _ _ _ _ _ _ _ = Rejected _ |- _ =>
           rewrite Hc in Hrej; injection Hrej as ->
       end.
  all: match goal with
       | |- ∃ before, ?l = _ =>
           eexists (take (List.length l - 3) l); reflexivity
       end.
Qed.

Lemma rejection_report_witness :
  let w := Sample.timed_out_run in
  let err := DeadlineElapsed "Error: Timeout reached after 180 seconds" in
  let call := CallGetMythXReport None (Some trial_address) (Some trial_password)
                Sample.clean_request 20000 180000 in
  call ∈ trace (run w).2
  ∧ client_getMythXReport w None (Some trial_address) (Some trial_password)
      Sample.clean_request 20000 180000 = Rejected err
  ∧ ∃ before,
      trace (run w).2 =
        (before ++ [call; failure_headline; ConsoleLog (Red (error_text err))])%list.
Proof.
  intros w err call.
  assert (H : call ∈ trace (run w).2) by (unfold call; trace_has).
  split_and!; [exact H | reflexivity |].
  exact (rejection_report w _ _ _ _ _ _ err H eq_refl).
Defined.

(** ** Clean reports *)

(** C6: when the analysis succeeds and the normalised issue list is empty,
    the last thing printed is the success line, in green, naming the entry
    file as given on the command line and the contract the compiler
    selected, and the process exits with code 0. *)
Theorem clean_report_exits_0 w data raw :
  CallFormatIssues data raw ∈ trace (run w).2 →
  report_formatIssues w data raw = [] →
  (run w).1 = Some 0
  ∧ ∃ file input solc name c,
      positional (args w) !! 0%nat = Some (PStr file)
      ∧ CallGetCompiledContracts input solc (solidityFilePath w) name
          ∈ trace (run w).2
      ∧ compiler_getCompiledContracts w input solc (solidityFilePath w) name
        = Returns c
      ∧ last (trace (run w).2) =
          Some (ConsoleLog (Green ("✔ No errors/warnings found in " +:+ file
                                   +:+ " for contract: " +:+ contractName c))).
Proof.
  script_cases; intros H Hnone; in_trace H.
  all: try (rewrite Hnone in *; done).
  all: split; [done|].
  all: match goal with
       | Hs : is_string (positional _ !! 0%nat) = true |- _ =>
           destruct (positional (args w)) as [|[file|?] rest] eqn:Hpos;
           [done | clear Hs | done]
       end.
  all: exists file; do 4 eexists; split_and!; [done | | done |].
  all: try (repeat first [apply list_elem_of_here | apply list_elem_of_further]).
  all: unfold no_issues_message, arg0; rewrite Hpos; reflexivity.
Qed.

Lemma clean_report_exits_0_witness :
  let w := Sample.clean_run in
  let data := <["sources" := JObject (sources (compiler_getSolcInput w
                  (copy_sources (Object_keys Sample.token_resolved)
                     Sample.token_resolved [])))]> Sample.clean_request in
  CallFormatIssues data [] ∈ trace (run w).2
  ∧ report_formatIssues w data [] = []
  ∧ (run w).1 = Some 0
  ∧ last (trace (run w).2) =
      Some (ConsoleLog
              (Green "✔ No errors/warnings found in Token.sol for contract: Token")).
Proof.
  intros w data.
  assert (H : CallFormatIssues data [] ∈ trace (run w).2) by trace_has.
  assert (Hnone : report_formatIssues w data [] = []) by reflexivity.
  split_and!; [exact H | exact Hnone | | by vm_compute].
  exact (proj1 (clean_report_exits_0 w data [] H Hnone)).
Defined.

(** ** The order of the source list *)

(** C8: the source list handed to the request builder is, element by
    element and in the same order, the list of keys of the source mapping
    from which the compiler input is built, which in turn is the list of
    keys of the mapping the profiler resolved; and a request builder that
    stores the source list it is given submits exactly this list. *)
Theorem sourceList_order w c sourceList path a srcs :
  resolves_objects w →
  CallGetSolcInput srcs ∈ trace (run w).2 →
  CallGetRequestData c sourceList path a ∈ trace (run w).2 →
  sourceList = Object_keys srcs
  ∧ (∃ r paths solc resolved,
       Profiler_resolveAllSources w r paths solc = Fulfilled resolved
       ∧ sourceList = Object_keys resolved)
  ∧ (keeps_sourceList w →
     ∀ apiUrl a' p data d t,
       CallGetMythXReport apiUrl a' p data d t ∈ trace (run w).2 →
       data !! "sourceList" = Some (JArray (JString <$> Object_keys srcs))).
Proof.
  intros Hwf. script_cases; intros Hin Hreq; in_trace Hreq; in_trace Hin.
  all: match goal with
       | Hr : Profiler_resolveAllSources _ _ _ _ = Fulfilled ?res |- _ =>
           pose proof (copy_all_sources_keys res (Hwf _ _ _ _ Hr)) as Hkeys
       end.
  all: split_and!; [by rewrite Hkeys | eauto 10 |].
  all: intros Hkeep ?????? Hsub; in_trace Hsub;
    rewrite Hkeys; eapply Hkeep; eassumption.
Qed.

Lemma sample_resolves_objects : resolves_objects Sample.clean_run.
Proof.
  intros r paths solc resolved [= <-]. unfold well_formed.
  apply (bool_decide_unpack _). by vm_compute.
Defined.

Lemma sample_keeps_sourceList : keeps_sourceList Sample.clean_run.
Proof.
  intros c sourceList path a data [= <-]. unfold Sample.request.
  rewrite lookup_insert_ne by done. by rewrite lookup_insert_eq.
Defined.

Lemma sourceList_order_witness :
  let w := Sample.clean_run in
  let srcs := copy_sources (Object_keys Sample.token_resolved)
                Sample.token_resolved [] in
  let sourceList := [Sample.token_path; Sample.math_path] in
  resolves_objects w
  ∧ CallGetSolcInput srcs ∈ trace (run w).2
  ∧ CallGetRequestData Sample.token_compiled sourceList Sample.token_path
      Sample.quick_args ∈ trace (run w).2
  ∧ sourceList = Object_keys srcs
  ∧ (keeps_sourceList w →
     ∀ apiUrl a' p data d t,
       CallGetMythXReport apiUrl a' p data d t ∈ trace (run w).2 →
       data !! "sourceList" = Some (JArray (JString <$> Object_keys srcs))).
Proof.
  intros w srcs sourceList.
  assert (Hin : CallGetSolcInput srcs ∈ trace (run w).2) by trace_has.
  assert (Hreq : CallGetRequestData Sample.token_compiled sourceList
                   Sample.token_path Sample.quick_args ∈ trace (run w).2)
    by trace_has.
  split_and!; [exact sample_resolves_objects | exact Hin | exact Hreq | |];
    apply (sourceList_order w _ _ _ _ _ sample_resolves_objects Hin Hreq).
Defined.

(** ** Credentials *)

(** C10: the credentials the analysis client receives.  If either of
    MYTHX_ETH_ADDRESS and MYTHX_PASSWORD is unset, both are the trial
    identity, whatever the other variable holds; the client receives the
    values of the two variables only when both are set; and there is no
    third case. *)
Theorem credentials_fallback w apiUrl a p data d t :
  CallGetMythXReport apiUrl a p data d t ∈ trace (run w).2 →
  (env w !! "MYTHX_ETH_ADDRESS" = None ∨ env w !! "MYTHX_PASSWORD" = None →
   a = Some "0x0000000000000000000000000000000000000000" ∧ p = Some "trial")
  ∧ (a = env w !! "MYTHX_ETH_ADDRESS" ∧ p = env w !! "MYTHX_PASSWORD" →
     is_Some (env w !! "MYTHX_ETH_ADDRESS") ∧ is_Some (env w !! "MYTHX_PASSWORD"))
  ∧ (a = Some trial_address ∧ p = Some trial_password
     ∨ a = env w !! "MYTHX_ETH_ADDRESS" ∧ p = env w !! "MYTHX_PASSWORD").
Proof.
  script_cases; intros H; in_trace H;
    match goal with
    | Hc : negb (truthy _ && truthy _) = true |- _ =>
        split_and!; [done | by intros [<- <-] | by left]
    | Hc : negb (truthy _ && truthy _) = false |- _ =>
        destruct (credentials_kept _ _ Hc) as [[? Ha] [? Hp]];
        split_and!;
          [rewrite Ha, Hp; by intros [?|?] | rewrite Ha, Hp; eauto | by right]
    end.
Qed.

Lemma credentials_fallback_witness :
  let w := Sample.half_configured_run in
  CallGetMythXReport None (Some trial_address) (Some trial_password)
    Sample.clean_request 20000 180000 ∈ trace (run w).2
  ∧ env w !! "MYTHX_ETH_ADDRESS" = Some "0x1234"
  ∧ env w !! "MYTHX_PASSWORD" = None
  ∧ (env w !! "MYTHX_ETH_ADDRESS" = None ∨ env w !! "MYTHX_PASSWORD" = None →
     Some trial_address = Some "0x0000000000000000000000000000000000000000"
     ∧ Some trial_password = Some "trial").
Proof.
  intros w.
  assert (H : CallGetMythXReport None (Some trial_address) (Some trial_password)
                Sample.clean_request 20000 180000 ∈ trace (run w).2) by trace_has.
  split_and!; [exact H | by vm_compute | by vm_compute |].
  exact (proj1 (credentials_fallback w _ _ _ _ _ _ H)).
Defined.

(** ** Issue normalisation *)

Module NormalizerFacts.
Import IssueNormalizer.

(** An issue whose key is already taken leaves the working set as it is. *)
Lemma dedup_seen_later seen (l2 l3 : list CanonicalIssue) y :
  key y ∈ seen → dedup seen (l2 ++ y :: l3) = dedup seen (l2 ++ l3).
Proof.
  revert seen. induction l2 as [|c l2 IH]; intros seen Hy; cbn.
  - by rewrite decide_True.
  - case_decide; [by apply IH|]. f_equal. apply IH. set_solver.
Qed.

Lemma dedup_later_duplicate seen (l1 l2 l3 : list CanonicalIssue) x y :
  key x = key y →
  dedup seen (l1 ++ x :: l2 ++ y :: l3) = dedup seen (l1 ++ x :: l2 ++ l3).
Proof.
  intros Hkey. revert seen. induction l1 as [|c l1 IH]; intros seen; cbn.
  - case_decide.
    + apply dedup_seen_later. by rewrite <-Hkey.
    + f_equal. apply dedup_seen_later. rewrite <-Hkey. set_solver.
  - case_decide; [apply IH|]. f_equal. apply IH.
Qed.

Lemma dedup_keys_fresh seen (l : list CanonicalIssue) c :
  c ∈ dedup seen l → key c ∉ seen.
Proof.
  revert seen. induction l as [|d l IH]; intros seen; cbn.
  - by intros ?%elem_of_nil.
  - case_decide; [apply IH|].
    intros [-> | Hin]%elem_of_cons; [done|]. apply IH in Hin. set_solver.
Qed.

Lemma dedup_NoDup seen (l : list CanonicalIssue) : NoDup (key <$> dedup seen l).
Proof.
  revert seen. induction l as [|d l IH]; intros seen; cbn; [constructor|].
  case_decide; [apply IH|]. cbn. constructor; [|apply IH].
  intros (c & Hk & Hin)%list_elem_of_fmap. apply dedup_keys_fresh in Hin.
  rewrite <-Hk in Hin. set_solver.
Qed.

Lemma place_Permutation c l : place c l ≡ₚ c :: l.
Proof.
  induction l as [|d l IH]; cbn; [done|].
  destruct (location_le c d); [done|]. rewrite IH. apply Permutation_swap.
Qed.

Lemma sort_issues_Permutation l : sort_issues l ≡ₚ l.
Proof.
  unfold sort_issues. induction l as [|c l IH]; cbn; [done|].
  by rewrite place_Permutation, IH.
Qed.

(** The normalised list has no two issues with the same rule, file, line
    and column. *)
Lemma formatIssues_unique_keys sm sl entry raw :
  NoDup (key <$> formatIssues sm sl entry raw).
Proof.
  unfold formatIssues. rewrite sort_issues_Permutation. apply dedup_NoDup.
Qed.

Lemma dedup_keys seen (l : list CanonicalIssue) k :
  k ∈ (key <$> dedup seen l) ↔ (k ∉ seen) ∧ k ∈ (key <$> l).
Proof.
  revert seen. induction l as [|d l IH]; intros seen; cbn.
  - rewrite elem_of_nil. tauto.
  - case_decide as Hd; cbn; rewrite ?elem_of_cons, IH.
    + split; [intros [? ?]; auto|].
      intros [Hk [-> | ?]]; [done | auto].
    + rewrite elem_of_union, elem_of_singleton. split.
      * intros [-> | [Hk ?]]; [auto | split; [tauto | auto]].
      * intros [Hk [-> | ?]]; [by left|].
        destruct (decide (k = key d)) as [-> | ?]; [by left | right; tauto].
Qed.

(** No finding is dropped: every rule and location among the resolved
    issues is in the normalised list, and no other. *)
Lemma formatIssues_keys sm sl entry raw k :
  k ∈ (key <$> formatIssues sm sl entry raw)
  ↔ k ∈ (key <$> (resolve sm sl entry <$> raw)).
Proof.
  unfold formatIssues. rewrite sort_issues_Permutation, dedup_keys.
  split; [tauto | split; [apply not_elem_of_empty | done]].
Qed.

Lemma resolve_key sm sl entry x y :
  raw_ruleId x = raw_ruleId y →
  resolveLocation sm sl entry (locationRef x)
  = resolveLocation sm sl entry (locationRef y) →
  key (resolve sm sl entry x) = key (resolve sm sl entry y).
Proof.
  intros Hr Hl. unfold resolve. rewrite Hl, Hr.
  by destruct (resolveLocation sm sl entry (locationRef y)) as [[??]?].
Qed.

(** C7: normalising a sequence of raw issues in which an issue [y] repeats
    the rule and the resolved location of an earlier issue [x] gives the same
    canonical issues as normalising the sequence without [y]; two raw issues
    with the same rule and resolved location give exactly one entry. *)
Theorem formatIssues_drops_duplicate sm sl entry (l1 l2 l3 : list RawIssue) x y :
  raw_ruleId x = raw_ruleId y →
  resolveLocation sm sl entry (locationRef x)
  = resolveLocation sm sl entry (locationRef y) →
  formatIssues sm sl entry (l1 ++ x :: l2 ++ y :: l3)
  = formatIssues sm sl entry (l1 ++ x :: l2 ++ l3)
  ∧ formatIssues sm sl entry [x; y] = [resolve sm sl entry x].
Proof.
  intros Hr Hl. pose proof (resolve_key sm sl entry x y Hr Hl) as Hkey.
  unfold formatIssues. split.
  - rewrite !fmap_app, !fmap_cons, !fmap_app, !fmap_cons.
    by rewrite (dedup_later_duplicate _ _ _ _ _ _ Hkey).
  - cbn. rewrite decide_False by set_solver.
    rewrite decide_True by (rewrite <-Hkey; set_solver). done.
Qed.

Lemma formatIssues_drops_duplicate_witness :
  let sm := Sample.token_map in
  let sl := [Sample.token_path; Sample.math_path] in
  let x := Sample.overflow 0 in
  let z := Sample.reentrancy 1 in
  raw_ruleId x = raw_ruleId x
  ∧ resolveLocation sm sl Sample.token_path (locationRef x)
    = resolveLocation sm sl Sample.token_path (locationRef x)
  ∧ formatIssues sm sl Sample.token_path ([z] ++ x :: [z] ++ x :: [])
    = formatIssues sm sl Sample.token_path ([z] ++ x :: [z] ++ [])
  ∧ formatIssues sm sl Sample.token_path [x; x]
    = [resolve sm sl Sample.token_path x].
Proof.
  intros sm sl x z.
  split_and!; [reflexivity | reflexivity | |];
    apply (formatIssues_drops_duplicate sm sl Sample.token_path [z] [z] [] x x
             eq_refl eq_refl).
Defined.

End NormalizerFacts.

(** ** Usage and exit codes *)

(** With [--version] the script prints the version of the package and exits
    with code 0, whatever else is on the command line: nothing is read,
    nothing else is printed. *)
Theorem version_takes_precedence w :
  version (args w) = true →
  (run w).1 = Some 0
  ∧ trace (run w).2 = [ConsoleLog (Plain (package_version w))].
Proof. intros Hv. unfold_script. cbn. by rewrite Hv. Qed.

Lemma version_takes_precedence_witness :
  version (args Sample.version_run) = true
  ∧ (run Sample.version_run).1 = Some 0
  ∧ trace (run Sample.version_run).2 = [ConsoleLog (Plain "0.9.0")].
Proof.
  split; [reflexivity|].
  exact (version_takes_precedence Sample.version_run eq_refl).
Defined.

(** Without [--version], a command line with no entry file or with [--help]
    prints the help text and exits with code 0; mode and format are not
    looked at. *)
Theorem usage_without_entry_file w :
  version (args w) = false →
  positional (args w) = [] ∨ help (args w) = true →
  (run w).1 = Some 0
  ∧ trace (run w).2 = [ConsoleLog (Plain helpText)].
Proof.
  intros Hv Hh. unfold_script. cbn. rewrite Hv. cbn.
  assert (bool_decide (List.length (positional (args w)) = 0%nat)
          || help (args w) = true) as ->.
  { destruct Hh as [-> | ->]; [done | apply orb_true_r]. }
  done.
Qed.

Lemma usage_without_entry_file_witness :
  version (args Cases.bare_run) = false
  ∧ positional (args Cases.bare_run) = []
  ∧ includes formats (format (args Cases.bare_run)) = false
  ∧ (run Cases.bare_run).1 = Some 0
  ∧ trace (run Cases.bare_run).2 = [ConsoleLog (Plain helpText)].
Proof.
  split_and!; [reflexivity | reflexivity | reflexivity | |];
    apply (usage_without_entry_file Cases.bare_run eq_refl (or_introl eq_refl)).
Defined.

Lemma positional_guard w :
  bool_decide (List.length (positional (args w)) = 0%nat) || help (args w) = false
  ↔ positional (args w) ≠ [] ∧ help (args w) = false.
Proof.
  rewrite orb_false_iff, bool_decide_eq_false.
  destruct (positional (args w)); cbn; split; intros [? ?]; split; done.
Qed.

Lemma is_string_Some v : is_string v = true → ∃ s, v = Some (PStr s).
Proof. destruct v as [[s|?]|]; [eauto | done | done]. Qed.

(** The process exits with code -1 exactly when the command line asks for
    neither the version nor the help, names an entry file, and the mode is
    invalid, or the format is invalid, or the entry file is given as a
    string and cannot be read. *)
Theorem exit_code_minus_one_iff w :
  (run w).1 = Some (-1) ↔
  version (args w) = false ∧ help (args w) = false ∧ positional (args w) ≠ []
  ∧ (includes modes (mode (args w)) = false
     ∨ includes formats (format (args w)) = false
     ∨ ∃ file msg,
         positional (args w) !! 0%nat = Some (PStr file)
         ∧ fs_readFileSync w (solidityFilePath w) = Throws msg).
Proof.
  split.
  - script_cases; intros [=];
      repeat match goal with
      | H : negb _ = true |- _ => apply negb_true_iff in H
      | H : _ || _ = false |- _ => apply positional_guard in H as [? ?]
      | H : is_string _ = true |- _ => apply is_string_Some in H as [? ?]
      end; eauto 10.
  - intros (Hv & Hh & Hp & Hbad).
    pose proof (proj2 (positional_guard w) (conj Hp Hh)) as Hg.
    unfold_script. cbn. rewrite Hv, Hg. cbn.
    destruct (includes modes (mode (args w))) eqn:Hm; cbn; [|done].
    destruct (includes formats (format (args w))) eqn:Hf; cbn; [|done].
    destruct Hbad as [? | [? | (file & msg & Hfile & Hread)]]; [done.. |].
    rewrite Hfile. cbn. case_step; cbn; by rewrite Hread.
Qed.

(** The process exits with code 1 exactly when the compiler is invoked and
    throws, or the script is ended by an exception that nothing catches. *)
Theorem exit_code_one_iff w :
  (run w).1 = Some 1 ↔
  (∃ input solc name msg,
     CallGetCompiledContracts input solc (solidityFilePath w) name
       ∈ trace (run w).2
     ∧ compiler_getCompiledContracts w input solc (solidityFilePath w) name
       = Throws msg)
  ∨ ∃ e, ending w = Crashed e.
Proof.
  split.
  - script_cases; intros [=]; first [by right; eexists | left].
    all: do 4 eexists; split; [|eassumption];
      repeat first [apply list_elem_of_here | apply list_elem_of_further].
  - intros [(input & solc & name & msg & H & Hthrow) | [e He]].
    + revert H Hthrow.
      script_cases; intros H Hthrow; in_trace H; congruence.
    + revert He. script_cases; intros He; first [discriminate He | reflexivity].
Qed.


(** ** Failures before the analysis *)

(** When [compiler.loadSolcVersion] throws, the compile spinner fails with a
    message that names the version found in the entry file, the message of
    the error is printed in red, and the process exits with code 0; no stage
    after the loading is performed. *)
Theorem compiler_load_failure_report w release msg :
  CallLoadSolcVersion release ∈ trace (run w).2 →
  compiler_loadSolcVersion w release = Throws msg →
  (run w).1 = Some 0
  ∧ (∃ before solidityCode solcVersion,
       fs_readFileSync w (solidityFilePath w) = Returns solidityCode
       ∧ compiler_getSolidityVersion w solidityCode = Returns solcVersion
       ∧ trace (run w).2 =
           (before ++
            [CallLoadSolcVersion release;
             SpinnerFail solcSpinner
               ("Compilation with solc v" +:+ solcVersion +:+ " failed");
             ConsoleLog (Red msg)])%list)
  ∧ Forall (λ n, n ≤ 2)%nat (stages (trace (run w).2)).
Proof.
  script_cases; intros H Hthrow; in_trace H; try congruence.
  all: match goal with
       | Hc : compiler_loadSolcVersion _ _ = Throws _ |- _ =>
           rewrite Hc in Hthrow; injection Hthrow as ->
       end.
  all: split_and!; [done | | repeat constructor].
  all: match goal with
       | |- ∃ before code version, _ ∧ _ ∧ ?l = _ =>
           eexists (take (List.length l - 3) l), _, _;
           split_and!; [reflexivity | eassumption | reflexivity]
       end.
Qed.

Lemma compiler_load_failure_report_witness :
  let w := Cases.unloadable_run in
  let release := Some "v0.5.0+commit.1d4f565a" in
  CallLoadSolcVersion release ∈ trace (run w).2
  ∧ compiler_loadSolcVersion w release = Throws "Cannot load soljson"
  ∧ (run w).1 = Some 0
  ∧ Forall (λ n, n ≤ 2)%nat (stages (trace (run w).2)).
Proof.
  intros w release.
  assert (H : CallLoadSolcVersion release ∈ trace (run w).2) by trace_has.
  split_and!; [exact H | reflexivity | |];
    apply (compiler_load_failure_report w release "Cannot load soljson" H eq_refl).
Defined.

(** When resolving the imports is rejected, the compile spinner fails with
    "Resolving imports failed", the error is printed in red, and the process
    exits with code 0; the compiler is not invoked and no later stage is
    performed. *)
Theorem import_failure_report w r paths solc err :
  CallResolveAllSources r paths solc ∈ trace (run w).2 →
  Profiler_resolveAllSources w r paths solc = Rejected err →
  (run w).1 = Some 0
  ∧ (∃ before,
       trace (run w).2 =
         (before ++ [CallResolveAllSources r paths solc;
                     SpinnerFail solcSpinner "Resolving imports failed";
                     ConsoleLog (Red err)])%list)
  ∧ Forall (λ n, n ≤ 3)%nat (stages (trace (run w).2)).
Proof.
  script_cases; intros H Hrej; in_trace H; try congruence.
  all: match goal with
       | Hc : Profiler_resolveAllSources _ _ _ _ = Rejected _ |- _ =>
           rewrite Hc in Hrej; injection Hrej as ->
       end.
  all: split_and!; [done | | repeat constructor].
  all: match goal with
       | |- ∃ before, ?l = _ => eexists (take (List.length l - 3) l); reflexivity
       end.
Qed.

Lemma import_failure_report_witness :
  let w := Cases.unresolved_run in
  let solc := solcSnapshot w "0.5.0" "soljson" in
  let err := "Error: Could not find ./SafeMath.sol from any sources" in
  CallResolveAllSources (resolver w) [Sample.token_path] solc ∈ trace (run w).2
  ∧ Profiler_resolveAllSources w (resolver w) [Sample.token_path] solc
    = Rejected err
  ∧ (run w).1 = Some 0
  ∧ Forall (λ n, n ≤ 3)%nat (stages (trace (run w).2)).
Proof.
  intros w solc err.
  assert (H : CallResolveAllSources (resolver w) [Sample.token_path] solc
              ∈ trace (run w).2) by trace_has.
  split_and!; [exact H | reflexivity | |];
    apply (import_failure_report w _ _ solc err H eq_refl).
Defined.

(** ** What the stages are given *)

(** The release handed to [compiler.loadSolcVersion] is the entry of the
    release table for the version found in the entry file, and the snapshot
    handed on is named after it.  A version with no release is not caught:
    the loader is called with [undefined] and the snapshot is named
    "soljson-undefined.js". *)
Theorem release_lookup w r paths solc :
  CallResolveAllSources r paths solc ∈ trace (run w).2 →
  ∃ solidityCode solcVersion,
    fs_readFileSync w (solidityFilePath w) = Returns solidityCode
    ∧ compiler_getSolidityVersion w solidityCode = Returns solcVersion
    ∧ let release := releases w !! solcVersion in
      CallLoadSolcVersion release ∈ trace (run w).2
      ∧ compiler_loadSolcVersion w release = Returns (solcString solc)
      ∧ soljsonName solc =
          match release with
          | Some build => "soljson-" +:+ build +:+ ".js"
          | None => "soljson-undefined.js"
          end.
Proof.
  script_cases; intros H; in_trace H.
  all: do 2 eexists; split; [reflexivity|]; split; [eassumption|];
    cbn; split_and!;
    [ repeat first [apply list_elem_of_here | apply list_elem_of_further]
    | eassumption
    | match goal with
      | |- context [ releases ?w' !! ?v ] => by destruct (releases w' !! v)
      end ].
Qed.

Lemma release_lookup_witness :
  let w := Cases.unreleased_run in
  let solc := {| solcString := "soljson"; soljsonName := "soljson-undefined.js" |} in
  CallResolveAllSources (resolver w) [Sample.token_path] solc ∈ trace (run w).2
  ∧ ∃ solidityCode solcVersion,
      fs_readFileSync w (solidityFilePath w) = Returns solidityCode
      ∧ compiler_getSolidityVersion w solidityCode = Returns solcVersion
      ∧ let release := releases w !! solcVersion in
        CallLoadSolcVersion release ∈ trace (run w).2
        ∧ compiler_loadSolcVersion w release = Returns (solcString solc)
        ∧ soljsonName solc =
            match release with
            | Some build => "soljson-" +:+ build +:+ ".js"
            | None => "soljson-undefined.js"
            end.
Proof.
  intros w solc.
  assert (H : CallResolveAllSources (resolver w) [Sample.token_path] solc
              ∈ trace (run w).2) by trace_has.
  split; [exact H | exact (release_lookup w _ _ solc H)].
Defined.

(** Every stage that takes the entry file is given the same path, the entry
    file resolved against the working directory; the resolver is rooted in
    the directory of that path, the compiler gets [args._[1]] as the contract
    name, and the request builder gets the parsed arguments. *)
Theorem stages_given_entry w : Forall (given_entry w) (trace (run w).2).
Proof. script_cases; repeat constructor. Qed.

(** The stages of a run are called in the order of the pipeline, each at
    most once: reading, version, loading, resolving, compiler input,
    compiling, request, submission, normalisation, formatting. *)
Theorem stages_in_pipeline_order w :
  StronglySorted lt (stages (trace (run w).2)).
Proof.
  script_cases;
    repeat (constructor; [|repeat (constructor; [lia|]); constructor]);
    constructor.
Qed.

Section ObjectLaws.
Context {V : Type}.
Implicit Types (o : obj V) (k : string) (v : V).

Lemma obj_get_set k v o : obj_get k (obj_set k v o) = Some v.
Proof.
  induction o as [|[k' v'] o IH]; cbn.
  - by rewrite decide_True.
  - case_decide as Hk; cbn; [by rewrite decide_True | by rewrite decide_False].
Qed.

Lemma obj_get_set_other k k' v o :
  k' ≠ k → obj_get k' (obj_set k v o) = obj_get k' o.
Proof.
  intros Hne. induction o as [|[k0 v0] o IH]; cbn.
  - by rewrite decide_False.
  - case_decide as Hk; cbn.
    + subst. by rewrite !decide_False by done.
    + case_decide; [done | apply IH].
Qed.

Lemma obj_get_None k o : obj_get k o = None ↔ k ∉ Object_keys o.
Proof.
  unfold Object_keys. induction o as [|[k' v'] o IH]; cbn.
  - split; [intros _; apply not_elem_of_nil | done].
  - rewrite not_elem_of_cons.
    case_decide; [split; [done | intros [? _]; congruence]|].
    rewrite IH. split; [intros ?; split; [congruence | done] | tauto].
Qed.

End ObjectLaws.

(** Reading a property after the loop of lines 110-112. *)
Lemma copy_sources_get (resolved : obj ResolvedSource) (names : list string)
    (all : obj jsval) k :
  obj_get k (copy_sources names resolved all) =
    match obj_get k resolved with
    | Some r => if decide (k ∈ names) then Some (source_entry r) else obj_get k all
    | None => obj_get k all
    end.
Proof.
  unfold copy_sources. revert all.
  induction names as [|n names IH]; intros all; cbn.
  - by destruct (obj_get k resolved).
  - rewrite IH. unfold copy_source.
    destruct (obj_get k resolved) as [r|] eqn:Hk.
    + destruct (decide (k ∈ names)) as [Hin | Hnin].
      * rewrite decide_True by (by right). done.
      * destruct (decide (k = n)) as [-> | Hne].
        -- rewrite Hk, obj_get_set, decide_True by (by left). done.
        -- rewrite decide_False by (intros [?|?]%elem_of_cons; done).
           destruct (obj_get n resolved); [by rewrite obj_get_set_other | done].
    + destruct (obj_get n resolved) as [r'|] eqn:Hn; [|done].
      rewrite obj_get_set_other; [done|]. intros ->. congruence.
Qed.

(** The sources handed to [compiler.getSolcInput] hold, under every file
    name the profiler resolved, the object [{ content: body }] of that file,
    and nothing under any other name; the compiler is then invoked on the
    input built from them. *)
Theorem compiler_input_sources w srcs k :
  CallGetSolcInput srcs ∈ trace (run w).2 →
  ∃ r paths solc resolved,
    CallResolveAllSources r paths solc ∈ trace (run w).2
    ∧ Profiler_resolveAllSources w r paths solc = Fulfilled resolved
    ∧ obj_get k srcs = source_entry <$> obj_get k resolved
    ∧ ∃ solc' name,
        CallGetCompiledContracts (compiler_getSolcInput w srcs) solc'
          (solidityFilePath w) name ∈ trace (run w).2.
Proof.
  script_cases; intros H; in_trace H.
  all: do 4 eexists; split_and!;
    [ repeat first [apply list_elem_of_here | apply list_elem_of_further]
    | eassumption
    |
    | do 2 eexists;
      repeat first [apply list_elem_of_here | apply list_elem_of_further] ].
  all: rewrite copy_sources_get;
    match goal with
    | |- context [ obj_get ?k' ?res ] =>
        destruct (obj_get k' res) as [r|] eqn:Hk; [|done];
        rewrite decide_True; [done|];
        destruct (decide (k' ∈ Object_keys res)) as [|Hn]; [done|];
        apply obj_get_None in Hn; congruence
    end.
Qed.

Lemma compiler_input_sources_witness :
  let w := Sample.clean_run in
  let srcs := copy_sources (Object_keys Sample.token_resolved)
                Sample.token_resolved [] in
  CallGetSolcInput srcs ∈ trace (run w).2
  ∧ obj_get Sample.math_path srcs
    = Some (JObject [("content", JString Sample.math_source)])
  ∧ ∃ r paths solc resolved,
      CallResolveAllSources r paths solc ∈ trace (run w).2
      ∧ Profiler_resolveAllSources w r paths solc = Fulfilled resolved
      ∧ obj_get Sample.math_path srcs = source_entry <$> obj_get Sample.math_path resolved
      ∧ ∃ solc' name,
          CallGetCompiledContracts (compiler_getSolcInput w srcs) solc'
            (solidityFilePath w) name ∈ trace (run w).2.
Proof.
  intros w srcs.
  assert (H : CallGetSolcInput srcs ∈ trace (run w).2) by trace_has.
  split_and!; [exact H | reflexivity |].
  exact (compiler_input_sources w srcs Sample.math_path H).
Defined.

(** ** What the analysis client is given *)

Lemma credentials_sent w apiUrl a p data d t :
  CallGetMythXReport apiUrl a p data d t ∈ trace (run w).2 →
  apiUrl = env w !! "MYTHX_API_URL"
  ∧ (a, p) =
      if truthy (env w !! "MYTHX_ETH_ADDRESS")
         && truthy (env w !! "MYTHX_PASSWORD")
      then (env w !! "MYTHX_ETH_ADDRESS", env w !! "MYTHX_PASSWORD")
      else (Some trial_address, Some trial_password).
Proof. script_cases; intros H; in_trace H; done. Qed.

(** The analysis client is given the endpoint of MYTHX_API_URL as it is,
    with no default when it is unset, and the address and password of the
    environment when both are set and not empty, otherwise the trial
    identity: a variable set to the empty string counts as unset. *)
Theorem credentials_by_truthiness w apiUrl a p data d t :
  CallGetMythXReport apiUrl a p data d t ∈ trace (run w).2 →
  apiUrl = env w !! "MYTHX_API_URL"
  ∧ (a, p) =
      (if truthy (env w !! "MYTHX_ETH_ADDRESS")
          && truthy (env w !! "MYTHX_PASSWORD")
       then (env w !! "MYTHX_ETH_ADDRESS", env w !! "MYTHX_PASSWORD")
       else (Some trial_address, Some trial_password))
  ∧ (env w !! "MYTHX_ETH_ADDRESS" = Some ""
     ∨ env w !! "MYTHX_PASSWORD" = Some "" →
     a = Some trial_address ∧ p = Some trial_password).
Proof.
  intros H. destruct (credentials_sent _ _ _ _ _ _ _ H) as [Hurl Hcred].
  split_and!; [done | done |].
  intros Hempty.
  assert (Hb : truthy (env w !! "MYTHX_ETH_ADDRESS")
               && truthy (env w !! "MYTHX_PASSWORD") = false).
  { destruct Hempty as [-> | ->]; [done | apply andb_false_r]. }
  rewrite Hb in Hcred. by injection Hcred as -> ->.
Qed.

Lemma credentials_by_truthiness_witness :
  let w := Cases.empty_password_run in
  CallGetMythXReport None (Some trial_address) (Some trial_password)
    Sample.clean_request 20000 180000 ∈ trace (run w).2
  ∧ env w !! "MYTHX_ETH_ADDRESS" = Some "0x1234"
  ∧ env w !! "MYTHX_PASSWORD" = Some ""
  ∧ (env w !! "MYTHX_ETH_ADDRESS" = Some ""
     ∨ env w !! "MYTHX_PASSWORD" = Some "" →
     Some trial_address = Some trial_address
     ∧ Some trial_password = Some trial_password).
Proof.
  intros w.
  assert (H : CallGetMythXReport None (Some trial_address) (Some trial_password)
                Sample.clean_request 20000 180000 ∈ trace (run w).2) by trace_has.
  split_and!; [exact H | by vm_compute | by vm_compute |].
  exact (proj2 (proj2 (credentials_by_truthiness w _ _ _ _ _ _ H))).
Defined.

(** ** Debug output *)

(** Without [--debug] neither the request body nor the response body is
    ever printed. *)
Theorem bodies_printed_only_on_debug w :
  debug (args w) = false →
  Forall (λ e, is_body_dump e = false) (trace (run w).2).
Proof.
  intros Hd. unfold_script. cbn. rewrite Hd. cbn.
  repeat (case_step; cbn); repeat constructor.
Qed.

Lemma bodies_printed_only_on_debug_witness :
  debug (args Cases.findings_run) = false
  ∧ Forall (λ e, is_body_dump e = false) (trace (run Cases.findings_run).2).
Proof.
  split; [reflexivity|].
  exact (bodies_printed_only_on_debug Cases.findings_run eq_refl).
Defined.

(** With [--debug] the request body is printed, under its heading, before
    the analysis spinner starts and the request is submitted, and what is
    printed is the body that is submitted; the response body is printed,
    between two separators, right after the spinner stops when the analysis
    succeeds, and not at all when it is rejected. *)
Theorem debug_prints_what_is_exchanged w apiUrl a p data d t :
  debug (args w) = true →
  CallGetMythXReport apiUrl a p data d t ∈ trace (run w).2 →
  (∃ before after text,
      trace (run w).2 =
        (before ++
         [ConsoleLog (Plain separator);
          ConsoleLog (Plain "MythX Request Body:
");
          ConsoleLog (InspectRequest data);
          SpinnerStart analysisSpinner text;
          CallGetMythXReport apiUrl a p data d t] ++ after)%list)
  ∧ match client_getMythXReport w apiUrl a p data d t with
    | Fulfilled result =>
        ∃ before after,
          trace (run w).2 =
            (before ++
             [SpinnerStop analysisSpinner;
              ConsoleLog (Plain separator);
              ConsoleLog (Plain "MythX Response Body:
");
              ConsoleLog (InspectResponse result);
              ConsoleLog (Plain separator)] ++ after)%list
    | Rejected _ => ∀ r, ConsoleLog (InspectResponse r) ∉ trace (run w).2
    end.
Proof.
  intros Hd. unfold_script. cbn. rewrite Hd. cbn.
  repeat (case_step; cbn); intros H; in_trace H; try congruence.
  all: try match goal with
       | H1 : ?x = Fulfilled _, H2 : ?x = Fulfilled _ |- _ =>
           rewrite H1 in H2; injection H2 as <-
       end.
  all: split.
  all: try match goal with
       | |- ∃ before after text, ?l = _ =>
           exists (take 9 l), (drop 14 l); eexists; reflexivity
       end.
  all: try match goal with
       | |- ∃ before after, ?l = _ =>
           exists (take 14 l), (drop 19 l); reflexivity
       end.
  all: intros r; not_in_trace.
Qed.

Lemma debug_prints_what_is_exchanged_witness :
  let w := Cases.debug_run in
  let data := Sample.request Sample.token_compiled
                [Sample.token_path; Sample.math_path]
                (Cases.with_debug Sample.quick_args) in
  debug (args w) = true
  ∧ CallGetMythXReport None (Some trial_address) (Some trial_password) data
      20000 180000 ∈ trace (run w).2
  ∧ ∃ before after text,
      trace (run w).2 =
        (before ++
         [ConsoleLog (Plain separator);
          ConsoleLog (Plain "MythX Request Body:
");
          ConsoleLog (InspectRequest data);
          SpinnerStart analysisSpinner text;
          CallGetMythXReport None (Some trial_address) (Some trial_password)
            data 20000 180000] ++ after)%list.
Proof.
  intros w data.
  assert (H : CallGetMythXReport None (Some trial_address) (Some trial_password)
                data 20000 180000 ∈ trace (run w).2) by trace_has.
  split_and!; [reflexivity | exact H |].
  exact (proj1 (debug_prints_what_is_exchanged w _ _ _ _ _ _ eq_refl H)).
Defined.

(** ** Reports *)

(** The normaliser is given the issues of the response the analysis client
    was fulfilled with, and the request body that was submitted with its
    [sources] replaced by those of the compiler input; this is the state in
    which the request body is left. *)
Theorem normalizer_input w data raw :
  CallFormatIssues data raw ∈ trace (run w).2 →
  ∃ apiUrl a p submitted d t result input solc name,
    CallGetMythXReport apiUrl a p submitted d t ∈ trace (run w).2
    ∧ client_getMythXReport w apiUrl a p submitted d t = Fulfilled result
    ∧ CallGetCompiledContracts input solc (solidityFilePath w) name
        ∈ trace (run w).2
    ∧ raw = issues result
    ∧ data = <["sources" := JObject (sources input)]> submitted
    ∧ payload (run w).2 = Some data.
Proof.
  script_cases; intros H; in_trace H.
  all: do 10 eexists; split_and!;
    [ repeat first [apply list_elem_of_here | apply list_elem_of_further]
    | eassumption
    | repeat first [apply list_elem_of_here | apply list_elem_of_further]
    | reflexivity | reflexivity | reflexivity ].
Qed.

Lemma normalizer_input_witness :
  let w := Cases.findings_run in
  let data := <["sources" := JObject (sources (compiler_getSolcInput w
                  (copy_sources (Object_keys Sample.token_resolved)
                     Sample.token_resolved [])))]> Sample.clean_request in
  CallFormatIssues data [Sample.overflow 0] ∈ trace (run w).2
  ∧ ∃ apiUrl a p submitted d t result input solc name,
      CallGetMythXReport apiUrl a p submitted d t ∈ trace (run w).2
      ∧ client_getMythXReport w apiUrl a p submitted d t = Fulfilled result
      ∧ CallGetCompiledContracts input solc (solidityFilePath w) name
          ∈ trace (run w).2
      ∧ [Sample.overflow 0] = issues result
      ∧ data = <["sources" := JObject (sources input)]> submitted
      ∧ payload (run w).2 = Some data.
Proof.
  intros w data.
  assert (H : CallFormatIssues data [Sample.overflow 0] ∈ trace (run w).2)
    by trace_has.
  split; [exact H | exact (normalizer_input w data _ H)].
Defined.

Lemma includes_formats f :
  includes formats f = true → ∃ s, f = AStr s ∧ s ∈ formats.
Proof.
  destruct f as [s|l]; [|done]. cbn. intros H%bool_decide_eq_true. eauto.
Qed.

(** When the normalised issue list is not empty, the formatter for the
    format of the command line, one of the six formats, is fetched and its
    output for the list is the last thing printed; the process exits with
    code 0 all the same. *)
Theorem issues_report w data raw :
  CallFormatIssues data raw ∈ trace (run w).2 →
  report_formatIssues w data raw ≠ [] →
  (run w).1 = Some 0
  ∧ (∃ s, format (args w) = AStr s ∧ s ∈ formats)
  ∧ ∃ before,
      trace (run w).2 =
        (before ++
         [CallFormatIssues data raw;
          CallGetFormatter (format (args w));
          ConsoleLog
            (Plain (report_getFormatter w (format (args w))
                      (report_formatIssues w data raw)))])%list.
Proof.
  script_cases; intros H Hsome; in_trace H.
  all: try (exfalso; apply Hsome;
            match goal with
            | Hb : bool_decide (List.length ?l = 0%nat) = true |- _ =>
                apply bool_decide_eq_true in Hb; by destruct l
            end).
  all: split_and!; [done | apply includes_formats; by apply negb_false_iff |].
  all: match goal with
       | |- ∃ before, ?l = _ => eexists (take (List.length l - 3) l); reflexivity
       end.
Qed.

Lemma issues_report_witness :
  let w := Cases.findings_run in
  let data := <["sources" := JObject (sources (compiler_getSolcInput w
                  (copy_sources (Object_keys Sample.token_resolved)
                     Sample.token_resolved [])))]> Sample.clean_request in
  CallFormatIssues data [Sample.overflow 0] ∈ trace (run w).2
  ∧ report_formatIssues w data [Sample.overflow 0] ≠ []
  ∧ (run w).1 = Some 0
  ∧ last (trace (run w).2) = Some (ConsoleLog (Plain "text report")).
Proof.
  intros w data.
  assert (H : CallFormatIssues data [Sample.overflow 0] ∈ trace (run w).2)
    by trace_has.
  assert (Hsome : report_formatIssues w data [Sample.overflow 0] ≠ [])
    by (vm_compute; discriminate).
  split_and!; [exact H | exact Hsome | | by vm_compute].
  exact (proj1 (issues_report w data _ H Hsome)).
Defined.

(** The request is built from the contract the compiler returned, right
    after the compile spinner has succeeded with a message naming the
    compiler version.  When the request builder returns, the analysis spinner
    that starts next names that contract; when it throws, the error lands in
    the handler of the import resolution: the compile spinner fails with
    "Resolving imports failed", the error is printed in red, and nothing
    follows. *)
Theorem request_built_from_compiled_contract w c sourceList path a :
  CallGetRequestData c sourceList path a ∈ trace (run w).2 →
  ∃ solidityCode solcVersion input solc name,
    fs_readFileSync w (solidityFilePath w) = Returns solidityCode
    ∧ compiler_getSolidityVersion w solidityCode = Returns solcVersion
    ∧ compiler_getCompiledContracts w input solc (solidityFilePath w) name
      = Returns c
    ∧ ∃ before after,
        trace (run w).2 =
          (before ++
           [CallGetCompiledContracts input solc (solidityFilePath w) name;
            SpinnerSucceed solcSpinner
              ("Compiled with solc v" +:+ solcVersion +:+ " successfully");
            CallGetRequestData c sourceList path a] ++ after)%list
        ∧ match client_getRequestData w c sourceList path a with
          | Returns _ =>
              SpinnerStart analysisSpinner ("Analyzing " +:+ contractName c)
                ∈ after
          | Throws msg =>
              after = [SpinnerFail solcSpinner "Resolving imports failed";
                       ConsoleLog (RedThrown msg)]
          end.
Proof.
  script_cases; intros H; in_trace H; try congruence.
  all: try match goal with
       | H1 : ?x = Throws _, H2 : ?x = Throws _ |- _ =>
           rewrite H1 in H2; injection H2 as <-
       end.
  all: do 5 eexists; split_and!; [reflexivity | eassumption | eassumption |].
  all: match goal with
       | |- ∃ before after, ?l = _ ∧ _ =>
           exists (take 6 l), (drop 9 l); split; [reflexivity|]; cbn;
           first [ reflexivity
                 | repeat first [apply list_elem_of_here
                                | apply list_elem_of_further] ]
       end.
Qed.

Lemma request_built_from_compiled_contract_witness :
  let w := Sample.clean_run in
  CallGetRequestData Sample.token_compiled [Sample.token_path; Sample.math_path]
    Sample.token_path Sample.quick_args ∈ trace (run w).2
  ∧ SpinnerStart analysisSpinner "Analyzing Token" ∈ trace (run w).2
  ∧ ∃ solidityCode solcVersion input solc name,
      fs_readFileSync w (solidityFilePath w) = Returns solidityCode
      ∧ compiler_getSolidityVersion w solidityCode = Returns solcVersion
      ∧ compiler_getCompiledContracts w input solc (solidityFilePath w) name
        = Returns Sample.token_compiled
      ∧ ∃ before after,
          trace (run w).2 =
            (before ++
             [CallGetCompiledContracts input solc (solidityFilePath w) name;
              SpinnerSucceed solcSpinner
                ("Compiled with solc v" +:+ solcVersion +:+ " successfully");
              CallGetRequestData Sample.token_compiled
                [Sample.token_path; Sample.math_path] Sample.token_path
                Sample.quick_args] ++ after)%list
          ∧ SpinnerStart analysisSpinner
              ("Analyzing " +:+ contractName Sample.token_compiled) ∈ after.
Proof.
  intros w.
  assert (H : CallGetRequestData Sample.token_compiled
                [Sample.token_path; Sample.math_path] Sample.token_path
                Sample.quick_args ∈ trace (run w).2) by trace_has.
  split_and!; [exact H | trace_has |].
  exact (request_built_from_compiled_contract w _ _ _ _ H).
Defined.

(** ** Exceptions that the script does not expect *)

(** An entry file that minimist hands over as a number never reaches the
    file system: once the argument checks have passed, [path.resolve] throws
    on it, nothing catches the error, and the process ends with status 1
    having printed nothing. *)
Theorem numeric_entry_is_uncaught w shown :
  version (args w) = false →
  help (args w) = false →
  includes modes (mode (args w)) = true →
  includes formats (format (args w)) = true →
  positional (args w) !! 0%nat = Some (PNum shown) →
  ending w = Crashed InvalidPathArgument
  ∧ (run w).1 = Some 1
  ∧ trace (run w).2 = [].
Proof.
  intros Hv Hh Hm Hf Hp.
  assert (Hg : bool_decide (List.length (positional (args w)) = 0%nat)
               || help (args w) = false).
  { apply positional_guard. split; [|done]. intros Hnil. by rewrite Hnil in Hp. }
  unfold_script. cbn. rewrite Hv, Hg, Hm, Hf, Hp. done.
Qed.

Lemma numeric_entry_is_uncaught_witness :
  let w := Cases.numeric_run in
  version (args w) = false
  ∧ help (args w) = false
  ∧ includes modes (mode (args w)) = true
  ∧ includes formats (format (args w)) = true
  ∧ positional (args w) !! 0%nat = Some (PNum "123")
  ∧ ending w = Crashed InvalidPathArgument
  ∧ (run w).1 = Some 1
  ∧ trace (run w).2 = [].
Proof.
  intros w.
  split_and!; [reflexivity.. | | |];
    apply (numeric_entry_is_uncaught w "123" eq_refl eq_refl eq_refl eq_refl
             eq_refl).
Defined.

(** When [compiler.getSolidityVersion] throws, nothing catches the error:
    the process ends with status 1 right after the entry file was read,
    before any spinner starts and with nothing printed. *)
Theorem version_failure_is_uncaught w solidityCode msg :
  CallGetSolidityVersion solidityCode ∈ trace (run w).2 →
  compiler_getSolidityVersion w solidityCode = Throws msg →
  ending w = Crashed (Thrown msg)
  ∧ (run w).1 = Some 1
  ∧ trace (run w).2 =
      [CallReadFileSync (solidityFilePath w);
       CallGetSolidityVersion solidityCode].
Proof.
  script_cases; intros H Hthrow; in_trace H; try congruence.
  all: match goal with
       | Hc : compiler_getSolidityVersion _ _ = Throws _ |- _ =>
           rewrite Hc in Hthrow; injection Hthrow as ->
       end.
  all: done.
Qed.

Lemma version_failure_is_uncaught_witness :
  let w := Cases.no_pragma_run in
  CallGetSolidityVersion Sample.token_source ∈ trace (run w).2
  ∧ compiler_getSolidityVersion w Sample.token_source
    = Throws "No version pragma found"
  ∧ ending w = Crashed (Thrown "No version pragma found")
  ∧ (run w).1 = Some 1.
Proof.
  intros w.
  assert (H : CallGetSolidityVersion Sample.token_source ∈ trace (run w).2)
    by trace_has.
  split_and!; [exact H | reflexivity | |];
    apply (version_failure_is_uncaught w _ _ H eq_refl).
Defined.

(** When [client.getRequestData] throws, after a successful compilation,
    the error lands in the handler of the import resolution: the compile
    spinner fails with "Resolving imports failed", the error is printed in
    red, nothing is submitted to the analysis service, and the process exits
    with code 0. *)
Theorem request_builder_failure_report w c sourceList path a msg :
  CallGetRequestData c sourceList path a ∈ trace (run w).2 →
  client_getRequestData w c sourceList path a = Throws msg →
  (run w).1 = Some 0
  ∧ (∃ before,
       trace (run w).2 =
         (before ++ [CallGetRequestData c sourceList path a;
                     SpinnerFail solcSpinner "Resolving imports failed";
                     ConsoleLog (RedThrown msg)])%list)
  ∧ (∀ apiUrl a' p data d t,
       CallGetMythXReport apiUrl a' p data d t ∉ trace (run w).2)
  ∧ payload (run w).2 = None.
Proof.
  script_cases; intros H Hthrow; in_trace H; try congruence.
  all: match goal with
       | Hc : client_getRequestData _ _ _ _ _ = Throws _ |- _ =>
           rewrite Hc in Hthrow; injection Hthrow as ->
       end.
  all: split_and!; [done | | intros; not_in_trace | done].
  all: match goal with
       | |- ∃ before, ?l = _ => eexists (take (List.length l - 3) l); reflexivity
       end.
Qed.

Lemma request_builder_failure_report_witness :
  let w := Cases.incomplete_run in
  let msg := "Incomplete artifact: no bytecode" in
  CallGetRequestData Sample.token_compiled [Sample.token_path; Sample.math_path]
    Sample.token_path Sample.quick_args ∈ trace (run w).2
  ∧ client_getRequestData w Sample.token_compiled
      [Sample.token_path; Sample.math_path] Sample.token_path Sample.quick_args
    = Throws msg
  ∧ (run w).1 = Some 0
  ∧ last (trace (run w).2) = Some (ConsoleLog (RedThrown msg)).
Proof.
  intros w msg.
  assert (H : CallGetRequestData Sample.token_compiled
                [Sample.token_path; Sample.math_path] Sample.token_path
                Sample.quick_args ∈ trace (run w).2) by trace_has.
  split_and!; [exact H | reflexivity | | by vm_compute].
  exact (proj1 (request_builder_failure_report w _ _ _ _ msg H eq_refl)).
Defined.
